(** * Minimum-mandatory metadata scores: a shallow embedding

    The development follows [getscores-items-min-mandatory.py]: the scoring
    primitives, the six rule groups evaluated per record, and the batch loop
    with its output table and failure log.  Python values that reach the
    primitives are dynamically typed, so they are embedded as a small
    universe [pyval]; operations that can raise live in the error monad
    [py]; the [Counter] of [discretedatetypes] is a [gmap]. *)

From Stdlib Require Import ZArith QArith Lia Lqa Ascii String DecimalNat DecimalString Sorted.
From stdpp Require Import base option list gmap strings.

Set Warnings "-register-all".

Local Open Scope string_scope.
Local Open Scope Z_scope.

(** ** Python values and exceptions *)

Module Py.

(** The values the script handles: what [json.loads] yields and what the
    document facade hands back (ordered dictionaries are association lists
    in insertion order, a tuple is a list).  A float is kept as the rational
    it denotes, which is all that [==] looks at; the two non-numbers that
    [json.loads] accepts beyond JSON proper ([NaN], [Infinity]) are left
    out. *)
Inductive pyval : Type :=
| PNone
| PBool (b : bool)
| PInt (z : Z)
| PFloat (q : Q)
| PStr (s : string)
| PList (l : list pyval)
| PDict (d : list (string * pyval)).

Inductive exn : Type :=
| TypeError
| KeyError
| IndexError
| AttributeError
| ValueError
| XMLSyntaxError.

(** A computation that returns or raises. *)
Inductive py (A : Type) : Type :=
| Ok (a : A)
| Raise (e : exn).
Arguments Ok {A} a.
Arguments Raise {A} e.

#[global] Instance py_ret : MRet py := fun A a => Ok a.
#[global] Instance py_bind : MBind py :=
  fun A B f m => match m with Ok a => f a | Raise e => Raise e end.

(** [try: body except: handler], with the bare [except] of the script. *)
Definition try_except {A} (body handler : py A) : py A :=
  match body with
  | Ok a => Ok a
  | Raise _ => handler
  end.

Definition raises {A} (c : py A) : bool :=
  match c with Ok _ => false | Raise _ => true end.

(** Python's [==]: structural; booleans, integers and floats compare by
    numeric value ([True == 1], [25778.0 == 25778]).  Two
    ordered dictionaries are equal when their items are equal in order; the
    script only ever compares dictionaries that the facade hands back. *)
Fixpoint py_eq (a b : pyval) : bool :=
  match a, b with
  | PNone, PNone => true
  | PBool x, PBool y => Bool.eqb x y
  | PBool x, PInt z => Z.b2z x =? z
  | PInt z, PBool x => z =? Z.b2z x
  | PInt x, PInt y => x =? y
  | PFloat x, PFloat y => Qeq_bool x y
  | PFloat x, PInt z => Qeq_bool x (inject_Z z)
  | PInt z, PFloat x => Qeq_bool (inject_Z z) x
  | PFloat x, PBool b => Qeq_bool x (inject_Z (Z.b2z b))
  | PBool b, PFloat x => Qeq_bool (inject_Z (Z.b2z b)) x
  | PStr x, PStr y => String.eqb x y
  | PList x, PList y =>
      (fix go (x y : list pyval) : bool :=
         match x, y with
         | [], [] => true
         | u :: x', v :: y' => py_eq u v && go x' y'
         | _, _ => false
         end) x y
  | PDict x, PDict y =>
      (fix go (x y : list (string * pyval)) : bool :=
         match x, y with
         | [], [] => true
         | (k, u) :: x', (k', v) :: y' => String.eqb k k' && py_eq u v && go x' y'
         | _, _ => false
         end) x y
  | _, _ => false
  end.

Definition char_str (c : Ascii.ascii) : pyval := PStr (String c EmptyString).

(** [len(v)] *)
Definition py_len (v : pyval) : py Z :=
  match v with
  | PList l => Ok (Z.of_nat (length l))
  | PDict d => Ok (Z.of_nat (length d))
  | PStr s => Ok (Z.of_nat (String.length s))
  | _ => Raise TypeError
  end.

(** The sequence a [for x in v] walks through. *)
Definition py_iter (v : pyval) : py (list pyval) :=
  match v with
  | PList l => Ok l
  | PDict d => Ok (map (fun kv => PStr (fst kv)) d)
  | PStr s => Ok (map char_str (String.list_ascii_of_string s))
  | _ => Raise TypeError
  end.

Definition seq_index {A} (l : list A) (i : Z) : py A :=
  let n := Z.of_nat (length l) in
  let j := if i <? 0 then i + n else i in
  if (0 <=? j) && (j <? n) then
    match nth_error l (Z.to_nat j) with
    | Some x => Ok x
    | None => Raise IndexError
    end
  else Raise IndexError.

Fixpoint dict_get (d : list (string * pyval)) (k : string) : option pyval :=
  match d with
  | [] => None
  | (k', v) :: d' => if String.eqb k k' then Some v else dict_get d' k
  end.

(** [c[k]] *)
Definition py_getitem (c k : pyval) : py pyval :=
  match c, k with
  | PList l, PInt i => seq_index l i
  | PList l, PBool b => seq_index l (Z.b2z b)
  | PStr s, PInt i => seq_index (map char_str (String.list_ascii_of_string s)) i
  | PStr s, PBool b => seq_index (map char_str (String.list_ascii_of_string s)) (Z.b2z b)
  | PDict d, PStr key =>
      match dict_get d key with
      | Some v => Ok v
      | None => Raise KeyError
      end
  | PDict _, _ => Raise KeyError
  | _, _ => Raise TypeError
  end.

(** [d.keys()] and [d.items()]; only dictionaries have them. *)
Definition py_keys (v : pyval) : py pyval :=
  match v with
  | PDict d => Ok (PList (map (fun kv => PStr (fst kv)) d))
  | _ => Raise AttributeError
  end.

Definition py_items (v : pyval) : py pyval :=
  match v with
  | PDict d => Ok (PList (map (fun kv => PList [PStr (fst kv); snd kv]) d))
  | _ => Raise AttributeError
  end.

Fixpoint is_substring (t s : string) : bool :=
  String.prefix t s ||
  match s with
  | EmptyString => false
  | String _ s' => is_substring t s'
  end.

(** [x in c] *)
Definition py_contains (x c : pyval) : py bool :=
  match c with
  | PList l => Ok (existsb (py_eq x) l)
  | PDict d =>
      Ok (match x with
          | PStr k => bool_decide (is_Some (dict_get d k))
          | _ => false
          end)
  | PStr s =>
      match x with
      | PStr t => Ok (is_substring t s)
      | _ => Raise TypeError
      end
  | _ => Raise TypeError
  end.

(** [x in l] for a list literal of the script (cannot raise). *)
Definition py_in (x : pyval) (l : list pyval) : bool := existsb (py_eq x) l.

(** [all(f(x) for x in l)]: the generator is consumed lazily, so an element
    after the first false one is never evaluated. *)
Fixpoint py_all {A} (f : A -> py bool) (l : list A) : py bool :=
  match l with
  | [] => Ok true
  | x :: l' => b ← f x; if b : bool then py_all f l' else Ok false
  end.

(** [sum(l, start)] on integers. *)
Definition py_sum (l : list Z) (start : Z) : Z := fold_left Z.add l start.

End Py.

Import Py.

(** ** The document facade

    [modsqual] is an external library: the script only uses, on each named
    top-level element of a parsed document, the attribute [exists], the
    method [text()] and the method [match(xpath=...)].  Each of them may
    raise, and [match] may hand back any value. *)

Module modsqual.

(** The path queries of the script, named after what they select. *)
Inductive xpath : Type :=
| titleInfo_primary    (* ./m:titleInfo[@usage="primary"] *)
| genre_authority      (* ./m:genre[@authority] *)
| single_dates         (* ./m:originInfo/m:dateCreated|./m:originInfo/m:dateIssued|./m:originInfo/m:copyrightDate *)
| encoding_w3cdtf      (* ./m:originInfo/*[@encoding="w3cdtf"] *)
| dates_without_point  (* ./m:originInfo[*[not(@point)]]/m:dateCreated|./m:originInfo[*[not(@point)]]/m:dateIssued *)
| point_start          (* ./m:originInfo/*[@point="start"] *)
| identifier_local     (* ./m:identifier[@type="local_bnumber" or @type="local_mss" or @type="local_tms"] *)
| location_repository  (* ./m:location/m:physicalLocation[@type="repository"] *)
| location_division    (* ./m:location/m:physicalLocation[@type="division"] *)
| location_shelf       (* ./m:location/m:shelfLocator *)
| location_all_three.  (* ./m:location[m:physicalLocation[@type="division"] and m:physicalLocation[@type="division_short_name"] and m:physicalLocation[@type="code"]] *)

Record Element : Type := {
  el_exists : py pyval;
  el_text : py pyval;
  el_match : xpath -> py pyval
}.

Record Mods : Type := {
  titleInfo : Element;
  typeOfResource : Element;
  genre : Element;
  originInfo : Element;
  identifier : Element;
  location : Element
}.

End modsqual.

Import modsqual.

(** ** Scoring primitives *)

Definition True_ : pyval := PBool true.
Definition False_ : pyval := PBool false.

(** assign points if bool value matches point argument value
    (defaults: [point=True], [value=1]) *)
Definition score (bool point : pyval) (value : Z) : Z :=
  if py_eq bool point then value else 0.

(** top-level element exists *)
Definition exists_ (element : Element) : py Z :=
  e ← el_exists element;
  mret (score e True_ 1).

(** element value matches a value from a controlled vocabulary *)
Definition inList (element : Element) (list : list pyval) : py Z :=
  e ← el_exists element;
  if py_eq e True_ then
    t ← el_text element;
    xs ← py_iter t;
    mret (score (PBool (forallb (fun i => py_in i list) xs)) True_ 1)
  else mret 0.

(** result from xpath match contains at least one element match *)
Definition xpathexists_try (match_ : pyval) (min : Z) : py Z :=
  n ← py_len match_;
  mret (score (PBool (min <=? n)) True_ 1).

Definition xpathexists (match_ : pyval) (min : Z) : py Z :=
  try_except (xpathexists_try match_ min) (mret 0).

(** [len(x.items()[0][1]['#text']) >= min] *)
Definition text_long_enough (min : Z) (x : pyval) : py bool :=
  its ← py_items x;
  it ← py_getitem its (PInt 0);
  body ← py_getitem it (PInt 1);
  t ← py_getitem body (PStr "#text");
  n ← py_len t;
  mret (min <=? n).

(** at least one element instance exists and values are longer than min *)
Definition xpathtextexists_try (match_ : pyval) (min : Z) : py Z :=
  xs ← py_iter match_;
  b ← py_all (text_long_enough min) xs;
  mret (score (PBool b) True_ 1).

Definition xpathtextexists (match_ : pyval) (min : Z) : py Z :=
  try_except (xpathtextexists_try match_ min) (mret 0).

(** result from xpath match contains exactly one match *)
Definition xpathexactlyone_try (match_ : pyval) : py Z :=
  n ← py_len match_;
  mret (score (PBool (n =? 1)) True_ 1).

Definition xpathexactlyone (match_ : pyval) : py Z :=
  try_except (xpathexactlyone_try match_) (mret 0).

(** result from xpath is less or equal to max *)
Definition xpathmax_try (match_ : pyval) (max : Z) : py Z :=
  n ← py_len match_;
  mret (score (PBool (n <=? max)) True_ 1).

Definition xpathmax (match_ : pyval) (max : Z) : py Z :=
  try_except (xpathmax_try match_ max) (mret 0).

(** all results from xpath query match *)
Definition xpathvaluesmatch_try (match_ : pyval) : py Z :=
  n ← py_len match_;
  if 0 <? n then
    xs ← py_iter match_;
    b ← py_all (fun x => m0 ← py_getitem match_ (PInt 0); mret (py_eq x m0)) xs;
    mret (score (PBool b) True_ 1)
  else mret 0.

Definition xpathvaluesmatch (match_ : pyval) : py Z :=
  try_except (xpathvaluesmatch_try match_) (mret 0).

(** [c.keys()[0]]; the keys of a dictionary here are strings. *)
Definition first_key (c : pyval) : py string :=
  ks ← py_keys c;
  k ← py_getitem ks (PInt 0);
  match k with
  | PStr s => mret s
  | _ => Raise TypeError
  end.

(** [counts[k] += 1] on a [Counter]: a missing key reads as 0. *)
Definition counter_incr (k : string) (counts : gmap string Z) : gmap string Z :=
  <[k := default 0 (counts !! k) + 1]> counts.

(** [for c in match: counts[c.keys()[0]] += 1] *)
Fixpoint count_datetypes (cs : list pyval) (counts : gmap string Z)
  : py (gmap string Z) :=
  match cs with
  | [] => mret counts
  | c :: cs' => k ← first_key c; count_datetypes cs' (counter_incr k counts)
  end.

(** scores if multiple dates have different date types *)
Definition discretedatetypes_try (match_ : pyval) : py Z :=
  cs ← py_iter match_;
  datetypes ← count_datetypes cs ∅;
  if 0 <? Z.of_nat (size datetypes) then
    mret (score (PBool (forallb (fun xv => snd xv =? 1) (map_to_list datetypes)))
                True_ 1)
  else mret 0.

Definition discretedatetypes (match_ : pyval) : py Z :=
  try_except (discretedatetypes_try match_) (mret 0).

(** scores if multiple dates do not include ranges *)
Definition multiplesingledates (modsdoc : Mods) : py Z :=
  m1 ← el_match (originInfo modsdoc) single_dates;
  n1 ← py_len m1;
  let datecount := PBool (2 <? n1) in
  m2 ← el_match (originInfo modsdoc) point_start;
  n2 ← py_len m2;
  let datestart := PBool (0 <? n2) in
  mret (score (PBool (forallb (fun d => py_eq d True_) [datecount; datestart]))
              False_ 1).

(** ** The score row and the per-record evaluation *)

(** One line of the output table, with the columns of [header].  The script
    divides with true division; the quotients are kept as exact rationals. *)
Record row : Type := {
  uuid : pyval;
  mms_id : pyval;
  mms_type : pyval;
  coll_id : pyval;
  division : pyval;
  title_1 : Z;
  title_2 : Z;
  title : Q;
  typeOfResource : Z;
  genre_1 : Z;
  genre_2 : Z;
  genre : Q;
  date_1 : Z;
  date_2 : Z;
  date_3 : Z;
  date_4 : Z;
  date : Q;
  identifier : Z;
  location_1 : Z;
  location_2 : Z;
  location_3 : Z;
  location_4 : Z;
  location_5 : Z;
  location : Q;
  total_min_mand : Q
}.

(** [n/d] under [from __future__ import division] *)
Definition true_div (n d : Z) : Q := Qdiv (inject_Z n) (inject_Z d).

(** [sum(scores)] on the category scores *)
Definition q_sum (l : list Q) : Q := fold_left Qplus l (inject_Z 0).

(** collections and divisions to omit from audit *)
Definition ignore : list pyval := [PInt 25778; PInt 25777].

Definition resource_types : list pyval :=
  map PStr
    ["text"; "cartographic"; "notated music"; "sound recording-musical";
     "sound recording-nonmusical"; "sound recording"; "still image";
     "moving image"; "three dimensional object"; "software, multimedia";
     "mixed material"].

Definition ignore_divisions : list pyval :=
  map PStr
    ["External, not an NYPL item, it comes from some other institution. (LEGACY; Please do not use)";
     "No Division, NYPL item, but not associated with any one Division, e.g. NYPL Art Work";
     "Comm, Marketing, and Business Dev"; "Reference and Research Services"].

(** The scores of one document: the block under [#scores], up to
    [row['total_min_mand']]. *)
Definition score_record (uuid_ mms_id_ mms_type_ coll_id_ : pyval)
    (modsdoc : Mods) : py row :=
  title_1_ ← exists_ (modsqual.titleInfo modsdoc);
  m ← el_match (modsqual.titleInfo modsdoc) titleInfo_primary;
  title_2_ ← xpathexactlyone m;
  let title_ := true_div (py_sum [title_1_; title_2_] 0) 2 in
  typeOfResource_ ← inList (modsqual.typeOfResource modsdoc) resource_types;
  genre_1_ ← exists_ (modsqual.genre modsdoc);
  m ← el_match (modsqual.genre modsdoc) genre_authority;
  genre_2_ ← xpathexists m 1;
  let genre_ := true_div (py_sum [genre_1_; genre_2_] 0) 2 in
  m ← el_match (originInfo modsdoc) single_dates;
  date_1_ ← xpathexists m 1;
  m ← el_match (originInfo modsdoc) encoding_w3cdtf;
  date_2_ ← xpathexists m 1;
  m ← el_match (originInfo modsdoc) dates_without_point;
  date_3_ ← discretedatetypes m;
  date_4_ ← (if date_1_ =? 1 then multiplesingledates modsdoc else mret 0);
  let date_ := true_div (py_sum [date_1_; date_2_; date_3_; date_4_] 0) 4 in
  m ← el_match (modsqual.identifier modsdoc) identifier_local;
  identifier_ ← xpathexists m 1;
  m ← el_match (modsqual.location modsdoc) location_repository;
  location_1_ ← xpathexists m 1;
  m ← el_match (modsqual.location modsdoc) location_division;
  location_2_ ← xpathexists m 1;
  m ← el_match (modsqual.location modsdoc) location_shelf;
  location_3_ ← xpathexists m 1;
  m ← el_match (modsqual.location modsdoc) location_division;
  location_4_ ← xpathvaluesmatch m;
  (* both operands of [&] are evaluated *)
  m ← el_match (modsqual.location modsdoc) location_division;
  n ← py_len m;
  division_ ←
    (if (location_2_ =? 1) && (0 <? n) then
       m ← el_match (modsqual.location modsdoc) location_division;
       first ← py_getitem m (PInt 0);
       pl ← py_getitem first (PStr "physicalLocation");
       py_getitem pl (PStr "#text")
     else mret (PStr "Null"));
  m ← el_match (modsqual.location modsdoc) location_all_three;
  location_5_ ← xpathexists m 1;
  let location_ :=
    true_div (py_sum [location_1_; location_2_; location_3_; location_4_]
                     location_5_) 5 in
  let scores := [title_; inject_Z typeOfResource_; genre_; date_;
                 inject_Z identifier_; location_] in
  mret {| uuid := uuid_; mms_id := mms_id_; mms_type := mms_type_;
          coll_id := coll_id_; division := division_;
          title_1 := title_1_; title_2 := title_2_; title := title_;
          typeOfResource := typeOfResource_;
          genre_1 := genre_1_; genre_2 := genre_2_; genre := genre_;
          date_1 := date_1_; date_2 := date_2_; date_3 := date_3_;
          date_4 := date_4_; date := date_;
          identifier := identifier_;
          location_1 := location_1_; location_2 := location_2_;
          location_3 := location_3_; location_4 := location_4_;
          location_5 := location_5_; location := location_;
          total_min_mand := q_sum scores |}.

(** ** The batch loop *)

(** What the body of the record-level [try] does with a record that does
    not raise. *)
Inductive verdict : Type :=
| NotScored                (* collection omitted: nothing is computed *)
| ScoredOnly (r : row)     (* scored, division omitted: row dropped *)
| Written (r : row).       (* scored and passed to [writer.writerow] *)

(** The two output files: the rows written after the header, and the text
    of the failure log. *)
Record files : Type := {
  csv : list row;
  log : string
}.

(** [str(idx)] *)
Definition str (idx : nat) : string :=
  DecimalString.NilZero.string_of_uint (Nat.to_uint idx).

(** [log.write(str(idx)); log.write('\n')] adds this text to the log. *)
Definition log_line (idx : nat) : string :=
  str idx +:+ String "010"%char EmptyString.

Section Main.

(** The two external collaborators of the loop. *)
Variable json_loads : pyval -> py pyval.
Variable new_Mods : pyval -> py Mods.

(** The inner [try]: the collection id sits in a JSON string of its own;
    any failure there leaves it empty. *)
Definition resolve_coll_id (line : pyval) : py pyval :=
  try_except
    (h ← py_getitem line (PStr "solr_doc_hash");
     solrhash ← json_loads h;
     b ← py_contains (PStr "mms_collection_id") solrhash;
     if b : bool then py_getitem solrhash (PStr "mms_collection_id")
     else mret (PStr ""))
    (mret (PStr "")).

(** [(row['coll_id'] not in ignore) or (row['coll_id'] == '')] *)
Definition collection_kept (c : pyval) : bool :=
  negb (py_in c ignore) || py_eq c (PStr "").

(** The body of the record-level [try]. *)
Definition evaluate (line : string) : py verdict :=
  line ← json_loads (PStr line);
  mms_id_ ← py_getitem line (PStr "id");
  mms_type_ ← py_getitem line (PStr "type");
  uuid_ ← py_getitem line (PStr "uuid");
  mods ← py_getitem line (PStr "full_xml");
  coll_id_ ← resolve_coll_id line;
  if collection_kept coll_id_ then
    modsdoc ← new_Mods mods;
    r ← score_record uuid_ mms_id_ mms_type_ coll_id_ modsdoc;
    if negb (py_in (division r) ignore_divisions)
    then mret (Written r)
    else mret (ScoredOnly r)
  else mret NotScored.

(** One turn of [for idx,line in enumerate(f)]. *)
Definition step (idx : nat) (line : string) (st : files) : files :=
  match evaluate line with
  | Ok (Written r) => {| csv := csv st ++ [r]; log := log st |}
  | Ok _ => st
  | Raise _ =>
      {| csv := csv st;
         log := log st +:+ log_line idx |}
  end.

Fixpoint run (idx : nat) (lines : list string) (st : files) : files :=
  match lines with
  | [] => st
  | line :: rest => run (S idx) rest (step idx line st)
  end.

(** The whole script on the lines of [mms_items.json]. *)
Definition main (lines : list string) : files :=
  run 0 lines {| csv := []; log := "" |}.

End Main.

(** ** A document tree behind the facade

    The library that parses the XML and answers the path queries is not part
    of the script.  This module gives the facade a concrete reading on an
    element tree, for the statements that speak about the nodes of a
    document. *)

Module Tree.

Inductive xnode : Type :=
| XNode (tag : string) (attrs : list (string * string)) (text : string)
        (kids : list xnode).

Definition tag (n : xnode) : string := let 'XNode t _ _ _ := n in t.
Definition attrs (n : xnode) : list (string * string) := let 'XNode _ a _ _ := n in a.
Definition text (n : xnode) : string := let 'XNode _ _ x _ := n in x.
Definition kids (n : xnode) : list xnode := let 'XNode _ _ _ k := n in k.

Fixpoint assoc (a : string) (l : list (string * string)) : option string :=
  match l with
  | [] => None
  | (k, v) :: l' => if String.eqb a k then Some v else assoc a l'
  end.

Definition named (t : string) (n : xnode) : bool := String.eqb (tag n) t.

Definition has_attr (a : string) (n : xnode) : bool :=
  match assoc a (attrs n) with Some _ => true | None => false end.

Definition attr_is (a v : string) (n : xnode) : bool :=
  match assoc a (attrs n) with Some v' => String.eqb v' v | None => false end.

(** The children of every node of [ns] called [t], in document order. *)
Definition under (t : string) (ns : list xnode) : list xnode :=
  flat_map kids (List.filter (named t) ns).

Definition is_single_date (n : xnode) : bool :=
  named "dateCreated" n || named "dateIssued" n || named "copyrightDate" n.

Definition is_location_of (ty : string) (n : xnode) : bool :=
  named "physicalLocation" n && attr_is "type" ty n.

(** Modelled from the spec: the path-query operation of the document access
    facade, "returning an ordered collection of matching sub-elements"; [top]
    is the list of children of the document's root, in document order, and
    each query is the XPath expression the script passes for it. *)
Definition select (q : xpath) (top : list xnode) : list xnode :=
  match q with
  | titleInfo_primary =>
      List.filter (fun n => named "titleInfo" n && attr_is "usage" "primary" n) top
  | genre_authority =>
      List.filter (fun n => named "genre" n && has_attr "authority" n) top
  | single_dates =>
      List.filter is_single_date (under "originInfo" top)
  | encoding_w3cdtf =>
      List.filter (attr_is "encoding" "w3cdtf") (under "originInfo" top)
  | dates_without_point =>
      List.filter (fun n => named "dateCreated" n || named "dateIssued" n)
        (flat_map kids
           (List.filter
              (fun o => named "originInfo" o
                        && existsb (fun c => negb (has_attr "point" c)) (kids o))
              top))
  | point_start =>
      List.filter (attr_is "point" "start") (under "originInfo" top)
  | identifier_local =>
      List.filter
        (fun n => named "identifier" n
                  && (attr_is "type" "local_bnumber" n
                      || attr_is "type" "local_mss" n
                      || attr_is "type" "local_tms" n))
        top
  | location_repository =>
      List.filter (is_location_of "repository") (under "location" top)
  | location_division =>
      List.filter (is_location_of "division") (under "location" top)
  | location_shelf =>
      List.filter (named "shelfLocator") (under "location" top)
  | location_all_three =>
      List.filter
        (fun l => named "location" l
                  && existsb (is_location_of "division") (kids l)
                  && existsb (is_location_of "division_short_name") (kids l)
                  && existsb (is_location_of "code") (kids l))
        top
  end.

Definition has_text (n : xnode) : bool := negb (String.eqb (text n) "").

(** Modelled from the spec: a matched node as the script receives it, a
    dictionary with the element's tag as its only key, under which sit the
    node's attributes (names prefixed with [@]) and, when the node has text,
    its text value under [#text]. *)
Definition to_dict (n : xnode) : pyval :=
  PDict
    [(tag n,
      PDict (map (fun kv => (String.append "@" (fst kv), PStr (snd kv))) (attrs n)
             ++ (if has_text n then [("#text", PStr (text n))] else [])))].

(** Modelled from the spec: a named sub-element accessor with its existence
    check, its text values (one for each element of that name that has text)
    and its path queries. *)
Definition element (name : string) (top : list xnode) : Element :=
  {| el_exists := Ok (PBool (existsb (named name) top));
     el_text :=
       Ok (PList (map (fun n => PStr (text n))
                      (List.filter (fun n => named name n && has_text n) top)));
     el_match := fun q => Ok (PList (map to_dict (select q top))) |}.

(** Modelled from the spec: the six accessors of a parsed document. *)
Definition mods_of (top : list xnode) : Mods :=
  {| modsqual.titleInfo := element "titleInfo" top;
     modsqual.typeOfResource := element "typeOfResource" top;
     modsqual.genre := element "genre" top;
     modsqual.originInfo := element "originInfo" top;
     modsqual.identifier := element "identifier" top;
     modsqual.location := element "location" top |}.

(** Modelled from the spec: [modsqual.Mods(mods)] for a given XML parser;
    unparseable text raises. *)
Definition parse_with (parser : string -> option (list xnode)) (mods : pyval)
  : py Mods :=
  match mods with
  | PStr s =>
      match parser s with
      | Some top => Ok (mods_of top)
      | None => Raise XMLSyntaxError
      end
  | _ => Raise TypeError
  end.

(** A leaf element. *)
Definition leaf (t : string) (a : list (string * string)) (x : string) : xnode :=
  XNode t a x [].

End Tree.

Import Tree.

(** Some documents. *)

Definition three_plain_dates : list xnode :=
  [XNode "originInfo" [] ""
     [leaf "dateCreated" [] "1901"; leaf "dateIssued" [] "1902";
      leaf "copyrightDate" [] "1903"]].

Definition three_dates_one_start : list xnode :=
  [XNode "originInfo" [] ""
     [leaf "dateCreated" [("point", "start")] "1901"; leaf "dateIssued" [] "1902";
      leaf "copyrightDate" [] "1903"]].

Definition two_plain_dates : list xnode :=
  [XNode "originInfo" [] ""
     [leaf "dateCreated" [] "1901"; leaf "dateIssued" [] "1902"]].

Definition one_of_each : list xnode :=
  [leaf "dateCreated" [] "1901"; leaf "dateIssued" [] "1902"].

Definition two_created_one_issued : list xnode :=
  [leaf "dateCreated" [] "1901"; leaf "dateCreated" [] "1905";
   leaf "dateIssued" [] "1902"].

(** A record with every mandatory element. *)
Definition full_doc (division_name : string) : list xnode :=
  [XNode "titleInfo" [("usage", "primary")] "" [leaf "title" [] "Atlas"];
   leaf "typeOfResource" [] "cartographic";
   leaf "genre" [("authority", "lctgm")] "Maps";
   XNode "originInfo" [] "" [leaf "dateCreated" [("encoding", "w3cdtf")] "1901"];
   leaf "identifier" [("type", "local_bnumber")] "b1234";
   XNode "location" [] ""
     [leaf "physicalLocation" [("type", "repository")] "NYPL";
      leaf "physicalLocation" [("type", "division")] division_name;
      leaf "shelfLocator" [] "Map Div. 01-23";
      leaf "physicalLocation" [("type", "division_short_name")] "MAP";
      leaf "physicalLocation" [("type", "code")] "MAP"]].

(** Facades that misbehave: an element whose attribute is missing, and a
    document whose queries hand back [None]. *)
Definition broken_element : Element :=
  {| el_exists := Raise AttributeError;
     el_text := Raise AttributeError;
     el_match := fun _ => Raise AttributeError |}.

Definition null_element : Element :=
  {| el_exists := Ok True_;
     el_text := Ok (PList []);
     el_match := fun _ => Ok PNone |}.

Definition null_doc : Mods :=
  {| modsqual.titleInfo := null_element;
     modsqual.typeOfResource := null_element;
     modsqual.genre := null_element;
     modsqual.originInfo := null_element;
     modsqual.identifier := null_element;
     modsqual.location := null_element |}.

(** An element that is present and has no text values. *)
Definition silent_element : Element :=
  {| el_exists := Ok True_;
     el_text := Ok (PList []);
     el_match := fun _ => Ok (PList []) |}.

Definition silent_doc : Mods :=
  {| modsqual.titleInfo := silent_element;
     modsqual.typeOfResource := silent_element;
     modsqual.genre := silent_element;
     modsqual.originInfo := silent_element;
     modsqual.identifier := silent_element;
     modsqual.location := silent_element |}.

(** A small input file: the decoded form of each line and of each embedded
    collection record, and the parsed form of each payload. *)
Definition sample_line (xml hash : string) : pyval :=
  PDict [("id", PInt 11); ("type", PStr "Item"); ("uuid", PStr "510d47e2");
         ("full_xml", PStr xml); ("solr_doc_hash", PStr hash)].

Definition sample_json (v : pyval) : py pyval :=
  match v with
  | PStr "good" => Ok (sample_line "full-map" "coll-7")
  | PStr "no-hash" => Ok (PDict [("id", PInt 12); ("type", PStr "Item");
                                 ("uuid", PStr "510d47e3"); ("full_xml", PStr "empty")])
  | PStr "ignored" => Ok (sample_line "full-map" "coll-25778")
  | PStr "reference" => Ok (sample_line "full-reference" "coll-7")
  | PStr "bad-xml" => Ok (sample_line "garbled" "coll-7")
  | PStr "coll-7" => Ok (PDict [("mms_collection_id", PInt 7)])
  | PStr "coll-25778" => Ok (PDict [("mms_collection_id", PInt 25778)])
  | PStr _ => Raise ValueError
  | _ => Raise TypeError
  end.

Definition sample_parser (s : string) : option (list xnode) :=
  match s with
  | "full-map" => Some (full_doc "Map Division")
  | "full-reference" => Some (full_doc "Reference and Research Services")
  | "empty" => Some []
  | _ => None
  end.

Definition sample_evaluate : string -> py verdict :=
  evaluate sample_json (parse_with sample_parser).

Definition sample_ids : pyval := PStr "510d47e2".

Definition empty_files : files := {| csv := []; log := "" |}.

(** ** The columns of the output table *)

(** A cell of the table: an identifying value, a pass/fail score, or a
    category score. *)
Inductive cell : Type :=
| CVal (v : pyval)
| CInt (z : Z)
| CFloat (q : Q).

Definition header : list string :=
  ["uuid"; "mms_id"; "mms_type"; "coll_id"; "division"; "title_1"; "title_2";
   "title"; "typeOfResource"; "genre_1"; "genre_2"; "genre"; "date_1";
   "date_2"; "date_3"; "date_4"; "date"; "identifier"; "location_1";
   "location_2"; "location_3"; "location_4"; "location_5"; "location";
   "total_min_mand"].

(** The dictionary [row] as it stands when [writer.writerow(row)] is
    reached: its keys in the order the script assigns them. *)
Definition row_items (r : row) : list (string * cell) :=
  [("mms_id", CVal (mms_id r)); ("mms_type", CVal (mms_type r));
   ("uuid", CVal (uuid r)); ("coll_id", CVal (coll_id r));
   ("title_1", CInt (title_1 r)); ("title_2", CInt (title_2 r));
   ("title", CFloat (title r)); ("typeOfResource", CInt (typeOfResource r));
   ("genre_1", CInt (genre_1 r)); ("genre_2", CInt (genre_2 r));
   ("genre", CFloat (genre r));
   ("date_1", CInt (date_1 r)); ("date_2", CInt (date_2 r));
   ("date_3", CInt (date_3 r)); ("date_4", CInt (date_4 r));
   ("date", CFloat (date r)); ("identifier", CInt (identifier r));
   ("location_1", CInt (location_1 r)); ("location_2", CInt (location_2 r));
   ("location_3", CInt (location_3 r)); ("location_4", CInt (location_4 r));
   ("division", CVal (division r)); ("location_5", CInt (location_5 r));
   ("location", CFloat (location r));
   ("total_min_mand", CFloat (total_min_mand r))].

Fixpoint cell_get (d : list (string * cell)) (k : string) : option cell :=
  match d with
  | [] => None
  | (k', v) :: d' => if String.eqb k k' then Some v else cell_get d' k
  end.

(** [csv.DictWriter(w, fieldnames=header).writerow(rowdict)] up to the
    formatting of the line: a key that is no field name raises [ValueError],
    and a field without a key is filled with the empty string. *)
Definition writerow (fieldnames : list string) (rowdict : list (string * cell))
  : py (list cell) :=
  if forallb (fun kv => existsb (String.eqb (fst kv)) fieldnames) rowdict
  then Ok (map (fun k => default (CVal (PStr "")) (cell_get rowdict k)) fieldnames)
  else Raise ValueError.

(** ** Reading the failure log back *)

(** The lines of a text, each closed by a newline; [acc] is the line read so
    far.  A text that does not end with a newline has no reading. *)
Fixpoint read_lines (s acc : string) : option (list string) :=
  match s with
  | EmptyString =>
      match acc with
      | EmptyString => Some []
      | String _ _ => None
      end
  | String ch s' =>
      if Ascii.eqb ch "010" then option_map (cons acc) (read_lines s' "")
      else read_lines s' (acc +:+ String ch EmptyString)
  end.

(** The number a line denotes when it is a decimal numeral without
    superfluous leading zeros. *)
Definition read_position (l : string) : option nat :=
  match DecimalString.NilZero.uint_of_string l with
  | Some d =>
      if Decimal.uint_beq (Decimal.unorm d) d then Some (Nat.of_uint d) else None
  | None => None
  end.

Fixpoint read_positions (ls : list string) : option (list nat) :=
  match ls with
  | [] => Some []
  | l :: rest =>
      match read_position l, read_positions rest with
      | Some n, Some ns => Some (n :: ns)
      | _, _ => None
      end
  end.

(** The positions a log lists: one decimal numeral on each line. *)
Definition read_log (s : string) : option (list nat) :=
  match read_lines s "" with
  | Some ls => read_positions ls
  | None => None
  end.

(** ** Notions used in the statements *)

(** A score of a pass/fail check. *)
Definition binary (s : Z) : Prop := s = 0 \/ s = 1.

(** A category score. *)
Definition unit_interval (q : Q) : Prop := (0 <= q)%Q /\ (q <= 1)%Q.

(** The row a verdict carries, and the rows it sends to the table. *)
Definition scored_row (v : verdict) : option row :=
  match v with
  | NotScored => None
  | ScoredOnly r | Written r => Some r
  end.

Definition written (v : verdict) : list row :=
  match v with
  | Written r => [r]
  | _ => []
  end.

(** The matched nodes that carry the key [k]. *)
Definition group (k : string) (nodes : list xnode) : list xnode :=
  List.filter (named k) nodes.

(** The counter after the loop over [nodes]. *)
Definition tally (nodes : list xnode) (counts : gmap string Z) : gmap string Z :=
  fold_left (fun acc n => counter_incr (tag n) acc) nodes counts.

(** The rows a run should leave in the table: those of the records whose
    verdict is [Written], in the order of the input. *)
Definition emitted_rows (eval : string -> py verdict) (lines : list string)
  : list row :=
  flat_map (fun line => match eval line with
                        | Ok v => written v
                        | Raise _ => []
                        end) lines.

(** The positions, counted from [start], of the records whose evaluation
    raises. *)
Definition failed_positions (eval : string -> py verdict) (start : nat)
    (lines : list string) : list nat :=
  map fst (List.filter (fun il => raises (eval (snd il)))
                       (combine (seq start (length lines)) lines)).

(** The text of a log made of one line for each of the given positions. *)
Definition log_of (positions : list nat) : string :=
  fold_right String.append "" (map log_line positions).

(** What reading the division off a document tree comes to: the text of the
    first division node, ["Null"] without such a node, and a [KeyError] when
    that node has no text. *)
Definition tree_division (top : list xnode) : py pyval :=
  match select location_division top with
  | [] => Ok (PStr "Null")
  | n :: _ => if has_text n then Ok (PStr (text n)) else Raise KeyError
  end.

(** * Properties *)

(** ** Running the primitives on the sample documents *)

Example msd_three_start : multiplesingledates (mods_of three_dates_one_start) = Ok 0.
Proof. reflexivity. Qed.

Example msd_two_plain : multiplesingledates (mods_of two_plain_dates) = Ok 1.
Proof. reflexivity. Qed.

Example sample_good_written :
  match sample_evaluate "good" with Ok (Written r) => total_min_mand r == 6 | _ => False end.
Proof. vm_compute. reflexivity. Qed.

Example sample_main_log :
  log (main sample_json (parse_with sample_parser)
         ["good"; "junk"; "ignored"; "bad-xml"; "reference"; "no-hash"])
  = log_line 1 +:+ log_line 3.
Proof. vm_compute. reflexivity. Qed.

Example sample_main_rows :
  map division (csv (main sample_json (parse_with sample_parser)
         ["good"; "junk"; "ignored"; "bad-xml"; "reference"; "no-hash"]))
  = [PStr "Map Division"; PStr "Null"].
Proof. vm_compute. reflexivity. Qed.

(** ** The error monad *)

Lemma bind_ok_inv {A B} (m : py A) (f : A -> py B) (b : B) :
  (m ≫= f) = Ok b -> exists a, m = Ok a /\ f a = Ok b.
Proof. destruct m as [a|e]; [eauto | discriminate]. Qed.

Lemma Ok_inj {A} (a b : A) : Ok a = Ok b -> a = b.
Proof. congruence. Qed.

Lemma try_except_never_raises {A} (body : py A) (d : A) :
  raises (try_except body (mret d)) = false.
Proof. by destruct body. Qed.

Lemma try_except_absorbs {A} (body : py A) (d : A) :
  try_except body (mret d) = if raises body then Ok d else body.
Proof. by destruct body. Qed.

(** Peel the leading binds off a computation known to return. *)
Tactic Notation "bind_inv" hyp(H) :=
  let a := fresh "v" in
  let E := fresh "E" in
  apply bind_ok_inv in H as (a & E & H).

(** ** Every primitive scores 0 or 1 *)


Lemma score_binary (b p : pyval) : binary (score b p 1).
Proof. unfold binary, score. destruct (py_eq b p); auto. Qed.

Create HintDb scores.
#[local] Hint Resolve score_binary : scores.
#[local] Hint Extern 1 (binary 0) => (left; reflexivity) : scores.
#[local] Hint Extern 1 (binary 1) => (right; reflexivity) : scores.

Tactic Notation "bind_inv" hyp(H) "as" ident(a) ident(E) :=
  apply bind_ok_inv in H as (a & E & H).

Ltac ok_inv H := injection H as <-.

Lemma exists_binary (e : Element) (s : Z) : exists_ e = Ok s -> binary s.
Proof.
  unfold exists_. intros H. bind_inv H. ok_inv H. auto with scores.
Qed.

Lemma inList_binary (e : Element) (l : list pyval) (s : Z) :
  inList e l = Ok s -> binary s.
Proof.
  unfold inList. intros H. bind_inv H.
  destruct (py_eq v True_).
  - bind_inv H. bind_inv H. ok_inv H. auto with scores.
  - ok_inv H. auto with scores.
Qed.

Lemma guarded_binary (body : py Z) (s : Z) :
  (forall s', body = Ok s' -> binary s') ->
  try_except body (mret 0) = Ok s -> binary s.
Proof.
  intros Hb. destruct body as [a|e]; cbn; intros H; ok_inv H; auto with scores.
Qed.

Lemma xpathexists_binary (m : pyval) (k s : Z) : xpathexists m k = Ok s -> binary s.
Proof.
  apply guarded_binary. unfold xpathexists_try. intros s' H.
  bind_inv H. ok_inv H. auto with scores.
Qed.

Lemma xpathtextexists_binary (m : pyval) (k s : Z) :
  xpathtextexists m k = Ok s -> binary s.
Proof.
  apply guarded_binary. unfold xpathtextexists_try. intros s' H.
  do 2 bind_inv H. ok_inv H. auto with scores.
Qed.

Lemma xpathexactlyone_binary (m : pyval) (s : Z) : xpathexactlyone m = Ok s -> binary s.
Proof.
  apply guarded_binary. unfold xpathexactlyone_try. intros s' H.
  bind_inv H. ok_inv H. auto with scores.
Qed.

Lemma xpathmax_binary (m : pyval) (k s : Z) : xpathmax m k = Ok s -> binary s.
Proof.
  apply guarded_binary. unfold xpathmax_try. intros s' H.
  bind_inv H. ok_inv H. auto with scores.
Qed.

Lemma xpathvaluesmatch_binary (m : pyval) (s : Z) : xpathvaluesmatch m = Ok s -> binary s.
Proof.
  apply guarded_binary. unfold xpathvaluesmatch_try. intros s' H.
  bind_inv H. destruct (0 <? v).
  - do 2 bind_inv H. ok_inv H. auto with scores.
  - ok_inv H. auto with scores.
Qed.

Lemma discretedatetypes_binary (m : pyval) (s : Z) : discretedatetypes m = Ok s -> binary s.
Proof.
  apply guarded_binary. unfold discretedatetypes_try. intros s' H.
  do 2 bind_inv H. destruct (0 <? _).
  - ok_inv H. auto with scores.
  - ok_inv H. auto with scores.
Qed.

Lemma multiplesingledates_binary (d : Mods) (s : Z) :
  multiplesingledates d = Ok s -> binary s.
Proof.
  unfold multiplesingledates. intros H. do 4 bind_inv H. ok_inv H.
  auto with scores.
Qed.

#[local] Hint Resolve exists_binary inList_binary xpathexists_binary
  xpathtextexists_binary xpathexactlyone_binary xpathmax_binary
  xpathvaluesmatch_binary discretedatetypes_binary multiplesingledates_binary
  : scores.

(** ** [multiplesingledates] on a document tree *)

Lemma multiplesingledates_tree (top : list xnode) :
  multiplesingledates (mods_of top)
  = Ok (if (2 <? Z.of_nat (length (select single_dates top)))
           && (0 <? Z.of_nat (length (select point_start top)))
        then 0 else 1).
Proof.
  unfold multiplesingledates. cbn -[select Z.ltb Z.of_nat].
  rewrite !length_map.
  destruct (2 <? _), (0 <? _); reflexivity.
Qed.

(** C1 (as stated): three single dates, none of them with [point="start"],
    would score 0.  The document [three_plain_dates] has exactly these three
    children and scores 1. *)
Lemma three_plain_dates_do_not_fail :
  ~ (forall top : list xnode,
        length (select single_dates top) = 3%nat ->
        forallb (fun n => negb (attr_is "point" "start" n))
                (select single_dates top) = true ->
        multiplesingledates (mods_of top) = Ok 0).
Proof.
  intros H. specialize (H three_plain_dates eq_refl eq_refl). discriminate H.
Qed.

(** C1 (amended): on a document whose originInfo elements have exactly three
    dateCreated/dateIssued/copyrightDate children, [multiplesingledates]
    returns 1 when no child of an originInfo carries [point="start"], and 0
    when some child does. *)
Theorem multiplesingledates_three_dates (top : list xnode) :
  length (select single_dates top) = 3%nat ->
  (select point_start top = [] -> multiplesingledates (mods_of top) = Ok 1) /\
  (select point_start top <> [] -> multiplesingledates (mods_of top) = Ok 0).
Proof.
  intros H3. rewrite multiplesingledates_tree, H3. split.
  - intros ->. reflexivity.
  - intros Hne. destruct (select point_start top); [done | reflexivity].
Qed.

Lemma multiplesingledates_three_dates_witness :
  length (select single_dates three_plain_dates) = 3%nat /\
  select point_start three_plain_dates = [] /\
  multiplesingledates (mods_of three_plain_dates) = Ok 1.
Proof.
  split; [reflexivity|]. split; [reflexivity|].
  apply (multiplesingledates_three_dates three_plain_dates); reflexivity.
Defined.

(** ** Errors inside the primitives *)

(** C2 (as stated): every primitive would turn a failure of the facade into
    the score 0.  [exists], [inList] and [multiplesingledates] have no
    handler: a missing attribute, or a query that yields [None], comes out
    of them as the exception, where [xpathexists] on the same [None] scores
    0. *)
Lemma unguarded_primitives_raise :
  exists_ broken_element = Raise AttributeError /\
  inList broken_element resource_types = Raise AttributeError /\
  el_match (originInfo null_doc) single_dates = Ok PNone /\
  xpathexists PNone 1 = Ok 0 /\
  multiplesingledates null_doc = Raise TypeError /\
  multiplesingledates null_doc <> Ok 0.
Proof. repeat split; discriminate. Qed.

(** Failures the guarded primitives absorb: a null collection, a collection
    that is no sequence, a node without text, a node that is no dictionary. *)
Example absorbed_null_collection :
  xpathexists PNone 1 = Ok 0 /\ xpathexactlyone PNone = Ok 0 /\
  xpathmax (PInt 3) 1 = Ok 0 /\ xpathvaluesmatch PNone = Ok 0.
Proof. repeat split. Qed.

Example absorbed_missing_text :
  xpathtextexists_try (PList [to_dict (leaf "genre" [("authority", "lctgm")] "")]) 1
  = Raise KeyError /\
  xpathtextexists (PList [to_dict (leaf "genre" [("authority", "lctgm")] "")]) 1
  = Ok 0.
Proof. split; reflexivity. Qed.

Example absorbed_node_without_keys :
  discretedatetypes_try (PList [PStr "1901"]) = Raise AttributeError /\
  discretedatetypes (PList [PStr "1901"]) = Ok 0.
Proof. split; reflexivity. Qed.

(** C2 (amended): each of the six primitives that take a match collection
    ([xpathexists], [xpathtextexists], [xpathexactlyone], [xpathmax],
    [xpathvaluesmatch], [discretedatetypes]) never raises: whenever the
    evaluation inside its [try] fails, its result is 0, and otherwise it is
    the value computed there. *)
Theorem guarded_primitives_absorb_errors (match_ : pyval) (min max : Z) :
  (raises (xpathexists match_ min) = false /\
   xpathexists match_ min
   = if raises (xpathexists_try match_ min) then Ok 0
     else xpathexists_try match_ min) /\
  (raises (xpathtextexists match_ min) = false /\
   xpathtextexists match_ min
   = if raises (xpathtextexists_try match_ min) then Ok 0
     else xpathtextexists_try match_ min) /\
  (raises (xpathexactlyone match_) = false /\
   xpathexactlyone match_
   = if raises (xpathexactlyone_try match_) then Ok 0
     else xpathexactlyone_try match_) /\
  (raises (xpathmax match_ max) = false /\
   xpathmax match_ max
   = if raises (xpathmax_try match_ max) then Ok 0
     else xpathmax_try match_ max) /\
  (raises (xpathvaluesmatch match_) = false /\
   xpathvaluesmatch match_
   = if raises (xpathvaluesmatch_try match_) then Ok 0
     else xpathvaluesmatch_try match_) /\
  (raises (discretedatetypes match_) = false /\
   discretedatetypes match_
   = if raises (discretedatetypes_try match_) then Ok 0
     else discretedatetypes_try match_).
Proof.
  repeat split;
    first [apply try_except_never_raises | apply try_except_absorbs].
Qed.

(** ** Ranges of the scores of a row *)


Lemma true_div_unit (n d : Z) : 0 <= n <= d -> 0 < d -> unit_interval (true_div n d).
Proof.
  intros Hn Hd. destruct d as [|p|p]; try lia.
  unfold unit_interval, true_div, Qdiv, Qinv, Qmult, Qle. cbn. lia.
Qed.

Lemma binary_unit (s : Z) : binary s -> unit_interval (inject_Z s).
Proof. intros [-> | ->]; split; unfold Qle; cbn; lia. Qed.

Lemma binary_bounds (s : Z) : binary s -> 0 <= s <= 1.
Proof. intros [-> | ->]; lia. Qed.

Lemma q_sum_six (a b c d e f : Q) :
  (q_sum [a; b; c; d; e; f] == a + b + c + d + e + f)%Q.
Proof. unfold q_sum. cbn. unfold inject_Z. lra. Qed.

(** What a returned row is made of. *)
Lemma score_record_inv (u i t c : pyval) (modsdoc : Mods) (r : row) :
  score_record u i t c modsdoc = Ok r ->
  (uuid r = u /\ mms_id r = i /\ mms_type r = t /\ coll_id r = c) /\
  (binary (title_1 r) /\ binary (title_2 r) /\ binary (typeOfResource r) /\
   binary (genre_1 r) /\ binary (genre_2 r) /\
   binary (date_1 r) /\ binary (date_2 r) /\ binary (date_3 r) /\
   binary (date_4 r) /\ binary (identifier r) /\
   binary (location_1 r) /\ binary (location_2 r) /\ binary (location_3 r) /\
   binary (location_4 r) /\ binary (location_5 r)) /\
  (title r = true_div (0 + title_1 r + title_2 r) 2 /\
   genre r = true_div (0 + genre_1 r + genre_2 r) 2 /\
   date r = true_div (0 + date_1 r + date_2 r + date_3 r + date_4 r) 4 /\
   location r = true_div (location_5 r + location_1 r + location_2 r
                          + location_3 r + location_4 r) 5 /\
   total_min_mand r
   = q_sum [title r; inject_Z (typeOfResource r); genre r; date r;
            inject_Z (identifier r); location r]).
Proof.
  unfold score_record. intros H. repeat bind_inv H. ok_inv H. cbn.
  repeat match goal with
         | E : (if ?b then _ else _) = Ok _ |- _ => destruct b
         end.
  all: repeat split; eauto with scores.
  all: match goal with E : mret 0 = Ok ?x |- binary ?x => ok_inv E; auto with scores end.
Qed.

(** C3: in every row that [score_record] returns, each of the fifteen
    binary scores is 0 or 1, each of the six category scores (title,
    typeOfResource, genre, date, identifier, location) lies between 0 and 1,
    and [total_min_mand] is the sum of the six category scores and lies
    between 0 and 6. *)
Theorem scored_row_ranges (u i t c : pyval) (modsdoc : Mods) (r : row) :
  score_record u i t c modsdoc = Ok r ->
  (binary (title_1 r) /\ binary (title_2 r) /\ binary (typeOfResource r) /\
   binary (genre_1 r) /\ binary (genre_2 r) /\
   binary (date_1 r) /\ binary (date_2 r) /\ binary (date_3 r) /\
   binary (date_4 r) /\ binary (identifier r) /\
   binary (location_1 r) /\ binary (location_2 r) /\ binary (location_3 r) /\
   binary (location_4 r) /\ binary (location_5 r)) /\
  (unit_interval (title r) /\ unit_interval (inject_Z (typeOfResource r)) /\
   unit_interval (genre r) /\ unit_interval (date r) /\
   unit_interval (inject_Z (identifier r)) /\ unit_interval (location r)) /\
  (total_min_mand r
   == title r + inject_Z (typeOfResource r) + genre r + date r
      + inject_Z (identifier r) + location r)%Q /\
  (0 <= total_min_mand r)%Q /\ (total_min_mand r <= 6)%Q.
Proof.
  intros H. apply score_record_inv in H as (_ & Hb & Ht & Hg & Hd & Hl & Htot).
  split; [exact Hb|].
  destruct Hb as (b1 & b2 & b3 & b4 & b5 & b6 & b7 & b8 & b9 & b10 & b11
                  & b12 & b13 & b14 & b15).
  assert (Hcat : unit_interval (title r) /\ unit_interval (inject_Z (typeOfResource r)) /\
                 unit_interval (genre r) /\ unit_interval (date r) /\
                 unit_interval (inject_Z (identifier r)) /\ unit_interval (location r)).
  { rewrite Ht, Hg, Hd, Hl.
    repeat match goal with
           | Hx : binary _ |- _ => pose proof (binary_bounds _ Hx); apply binary_unit in Hx
           end.
    split; [apply true_div_unit; lia|]. split; [assumption|].
    split; [apply true_div_unit; lia|]. split; [apply true_div_unit; lia|].
    split; [assumption|]. apply true_div_unit; lia. }
  split; [exact Hcat|].
  rewrite Htot, q_sum_six.
  destruct Hcat as ([? ?] & [? ?] & [? ?] & [? ?] & [? ?] & [? ?]).
  split; [reflexivity|]. split; lra.
Qed.

Lemma scored_row_ranges_witness :
  exists r : row,
    score_record sample_ids (PInt 11) (PStr "Item") (PInt 7)
                 (mods_of (full_doc "Map Division")) = Ok r /\
    binary (date_4 r) /\ unit_interval (location r) /\
    (total_min_mand r <= 6)%Q.
Proof.
  eexists. split; [vm_compute; reflexivity|].
  pose proof (scored_row_ranges sample_ids (PInt 11) (PStr "Item") (PInt 7)
                (mods_of (full_doc "Map Division")) _ eq_refl) as H.
  split; [apply H|]. split; apply H.
Defined.

(** ** Which records reach the output table *)


Lemma ignored_collection_not_empty (c : pyval) :
  py_in c ignore = true -> py_eq c (PStr "") = false.
Proof. destruct c; cbn; congruence. Qed.

Lemma step_ok json_loads new_Mods (idx : nat) (line : string) (st : files) (v : verdict) :
  evaluate json_loads new_Mods line = Ok v ->
  step json_loads new_Mods idx line st
  = {| csv := (csv st ++ written v)%list; log := log st |}.
Proof.
  unfold step. intros ->. destruct v, st; cbn; rewrite ?app_nil_r; reflexivity.
Qed.

Lemma step_raise json_loads new_Mods (idx : nat) (line : string) (st : files) (e : exn) :
  evaluate json_loads new_Mods line = Raise e ->
  step json_loads new_Mods idx line st
  = {| csv := csv st; log := log st +:+ log_line idx |}.
Proof. unfold step. intros ->. reflexivity. Qed.

(** C4: for a record whose evaluation does not raise, with [c] its resolved
    collection id: a row is written to the table exactly when [c] is not in
    [ignore] (or is the empty string) and the division of the scored row is
    not in [ignore_divisions]; when [c] is in [ignore] the record is not
    scored at all; otherwise the record is scored, its row being the result
    of [score_record] on the document built from its [full_xml], and when
    the division of that row is in [ignore_divisions] the row is not
    written. *)
Theorem row_written_iff json_loads new_Mods (idx : nat) (line : string)
    (st : files) (v : verdict) :
  evaluate json_loads new_Mods line = Ok v ->
  exists parsed c : pyval,
    json_loads (PStr line) = Ok parsed /\
    resolve_coll_id json_loads parsed = Ok c /\
    csv (step json_loads new_Mods idx line st) = (csv st ++ written v)%list /\
    log (step json_loads new_Mods idx line st) = log st /\
    ((exists r, written v = [r]) <->
     (negb (py_in c ignore) || py_eq c (PStr "")) = true /\
     exists r, scored_row v = Some r /\
               py_in (division r) ignore_divisions = false) /\
    (py_in c ignore = true -> v = NotScored) /\
    ((negb (py_in c ignore) || py_eq c (PStr "")) = true ->
     exists (mms_id_ mms_type_ uuid_ mods : pyval) (modsdoc : Mods) (r : row),
       py_getitem parsed (PStr "id") = Ok mms_id_ /\
       py_getitem parsed (PStr "type") = Ok mms_type_ /\
       py_getitem parsed (PStr "uuid") = Ok uuid_ /\
       py_getitem parsed (PStr "full_xml") = Ok mods /\
       new_Mods mods = Ok modsdoc /\
       score_record uuid_ mms_id_ mms_type_ c modsdoc = Ok r /\
       v = (if py_in (division r) ignore_divisions then ScoredOnly r
            else Written r)) /\
    (forall r, scored_row v = Some r ->
               coll_id r = c /\
               (py_in (division r) ignore_divisions = true -> v = ScoredOnly r) /\
               (py_in (division r) ignore_divisions = false -> v = Written r)).
Proof.
  intros H. pose proof (step_ok _ _ idx _ st _ H) as Hstep.
  unfold evaluate in H.
  bind_inv H as parsed Hparsed. bind_inv H as mms_id_ Hid.
  bind_inv H as mms_type_ Hty. bind_inv H as uuid_ Huu.
  bind_inv H as mods Hmods. bind_inv H as c Hc.
  exists parsed, c.
  split; [assumption|]. split; [assumption|].
  split; [rewrite Hstep; reflexivity|].
  split; [rewrite Hstep; reflexivity|].
  unfold collection_kept in H.
  destruct (negb (py_in c ignore) || py_eq c (PStr "")) eqn:Hkept.
  - bind_inv H as modsdoc Hdoc. bind_inv H as r Hr.
    pose proof Hr as Hscore.
    apply score_record_inv in Hr as ((_ & _ & _ & Hcoll) & _).
    destruct (py_in (division r) ignore_divisions) eqn:Hdiv; ok_inv H;
      cbn [written scored_row negb].
    + split.
      { split; [intros [r' Hr']; discriminate Hr'|].
        intros [_ (r' & Hr' & Hd')]. injection Hr' as <-. congruence. }
      split.
      { intros Hin. rewrite Hin, (ignored_collection_not_empty _ Hin) in Hkept.
        discriminate Hkept. }
      split.
      { intros _. exists mms_id_, mms_type_, uuid_, mods, modsdoc, r.
        rewrite Hdiv. auto 10. }
      intros r' Hr'. injection Hr' as <-. repeat split; congruence.
    + split.
      { split; [intros _; split; eauto | intros _; eauto]. }
      split.
      { intros Hin. rewrite Hin, (ignored_collection_not_empty _ Hin) in Hkept.
        discriminate Hkept. }
      split.
      { intros _. exists mms_id_, mms_type_, uuid_, mods, modsdoc, r.
        rewrite Hdiv. auto 10. }
      intros r' Hr'. injection Hr' as <-. repeat split; congruence.
  - ok_inv H. cbn [written scored_row]. split.
    { split; [intros [r' Hr']; discriminate Hr' | intros [Hf _]; discriminate Hf]. }
    split; [reflexivity|]. split; [discriminate|]. intros r' Hr'. discriminate Hr'.
Qed.

Lemma row_written_iff_witness :
  exists parsed c : pyval,
    sample_json (PStr "reference") = Ok parsed /\
    resolve_coll_id sample_json parsed = Ok c /\
    c = PInt 7 /\
    csv (step sample_json (parse_with sample_parser) 4 "reference" empty_files) = [] /\
    exists r : row,
      sample_evaluate "reference" = Ok (ScoredOnly r) /\
      division r = PStr "Reference and Research Services".
Proof.
  destruct (row_written_iff sample_json (parse_with sample_parser) 4 "reference"
              empty_files _ eq_refl) as (parsed & c & Hp & Hc & Hcsv & _).
  exists parsed, c. split; [exact Hp|]. split; [exact Hc|].
  split.
  { vm_compute in Hp. apply Ok_inj in Hp. subst parsed.
    vm_compute in Hc. apply Ok_inj in Hc. by subst c. }
  split; [exact Hcsv|].
  eexists. split; [vm_compute; reflexivity | reflexivity].
Defined.

(** ** Records that fail *)

Lemma append_assoc (a b c : string) : (a +:+ b) +:+ c = a +:+ (b +:+ c).
Proof.
  induction a as [|x a IH]; [reflexivity|].
  change (String x ((a +:+ b) +:+ c) = String x (a +:+ (b +:+ c))).
  by rewrite IH.
Qed.

Lemma append_empty_r (a : string) : a +:+ "" = a.
Proof.
  induction a as [|x a IH]; [reflexivity|].
  change (String x (a +:+ "") = String x a). by rewrite IH.
Qed.

Section Loop.

Variable json_loads : pyval -> py pyval.
Variable new_Mods : pyval -> py Mods.

Lemma step_extends (idx : nat) (line : string) (st : files) :
  step json_loads new_Mods idx line st
  = {| csv := (csv st ++ csv (step json_loads new_Mods idx line empty_files))%list;
       log := log st +:+ log (step json_loads new_Mods idx line empty_files) |}.
Proof.
  unfold step. destruct (evaluate json_loads new_Mods line) as [[|r|r]|e], st; cbn;
    rewrite ?app_nil_r, ?append_empty_r; reflexivity.
Qed.

(** The loop only ever appends to the two files. *)
Lemma run_extends (lines : list string) (idx : nat) (st : files) :
  run json_loads new_Mods idx lines st
  = {| csv := (csv st ++ csv (run json_loads new_Mods idx lines empty_files))%list;
       log := log st +:+ log (run json_loads new_Mods idx lines empty_files) |}.
Proof.
  revert idx st. induction lines as [|l ls IH]; intros idx st; cbn.
  - destruct st; cbn. by rewrite app_nil_r, append_empty_r.
  - rewrite (IH _ (step _ _ idx l st)), (IH _ (step _ _ idx l empty_files)).
    rewrite (step_extends idx l st). cbn.
    by rewrite app_assoc, append_assoc.
Qed.

Lemma run_app (pre post : list string) (idx : nat) (st : files) :
  run json_loads new_Mods idx (pre ++ post) st
  = run json_loads new_Mods (idx + length pre) post
        (run json_loads new_Mods idx pre st).
Proof.
  revert idx st. induction pre as [|l ls IH]; intros idx st; cbn.
  - by rewrite Nat.add_0_r.
  - rewrite IH. f_equal. lia.
Qed.

End Loop.

(** ** The date group and the division of a scored record *)

Ltac same_query :=
  repeat match goal with
         | E1 : ?x = Ok ?a, E2 : ?x = Ok ?b |- _ =>
             rewrite E1 in E2; injection E2 as <-
         end.

Lemma score_record_date (u i t c : pyval) (d : Mods) (r : row) :
  score_record u i t c d = Ok r ->
  exists m : pyval,
    el_match (originInfo d) single_dates = Ok m /\
    xpathexists m 1 = Ok (date_1 r) /\
    (if date_1 r =? 1 then multiplesingledates d else mret 0) = Ok (date_4 r).
Proof.
  unfold score_record. intros H. repeat bind_inv H. ok_inv H. cbn.
  eauto.
Qed.

Lemma score_record_division (u i t c : pyval) (d : Mods) (r : row) :
  score_record u i t c d = Ok r ->
  exists (m : pyval) (n : Z),
    el_match (modsqual.location d) location_division = Ok m /\
    xpathexists m 1 = Ok (location_2 r) /\
    py_len m = Ok n /\
    (if (location_2 r =? 1) && (0 <? n) then
       first ← py_getitem m (PInt 0);
       pl ← py_getitem first (PStr "physicalLocation");
       py_getitem pl (PStr "#text")
     else mret (PStr "Null")) = Ok (division r).
Proof.
  unfold score_record. intros H. repeat bind_inv H. ok_inv H. cbn.
  same_query.
  match goal with
  | E : el_match _ location_division = Ok ?m, L : py_len ?m = Ok ?n |- _ =>
      exists m, n
  end.
  repeat split; try assumption.
  match goal with
  | E : (if ?b then _ else _) = Ok ?x |- _ = Ok ?x =>
      destruct b; [|exact E]
  end.
  match goal with
  | E : (_ ≫= _) = Ok ?x |- _ = Ok ?x => bind_inv E; same_query; exact E
  end.
Qed.

Lemma xpathexists_list (l : list pyval) (k : Z) :
  xpathexists (PList l) k = Ok (if k <=? Z.of_nat (length l) then 1 else 0).
Proof. unfold xpathexists, xpathexists_try. cbn. by destruct (k <=? _). Qed.

Lemma filter_head {A} (p : A -> bool) (l : list A) (x : A) (rest : list A) :
  List.filter p l = x :: rest -> p x = true.
Proof.
  intros H. assert (Hin : In x (List.filter p l)) by (rewrite H; left; reflexivity).
  apply filter_In in Hin. tauto.
Qed.

Lemma attrs_hide_no_text (a : list (string * string)) (rest : list (string * pyval)) :
  dict_get (map (fun kv => ("@" +:+ fst kv, PStr (snd kv))) a ++ rest) "#text"
  = dict_get rest "#text".
Proof. induction a as [|[k v] a IH]; [reflexivity | exact IH]. Qed.

(** The text of a matched division node, read the way the script reads it. *)
Lemma division_text (n : xnode) :
  is_location_of "division" n = true ->
  (pl ← py_getitem (to_dict n) (PStr "physicalLocation");
   py_getitem pl (PStr "#text"))
  = if has_text n then Ok (PStr (text n)) else Raise KeyError.
Proof.
  unfold is_location_of, named. intros H.
  apply andb_true_iff in H as [Ht _]. apply String.eqb_eq in Ht.
  unfold to_dict. rewrite Ht. cbn [py_getitem dict_get String.eqb Ascii.eqb Bool.eqb].
  cbn -[dict_get String.append]. unfold String.append at 1.
  rewrite attrs_hide_no_text. destruct (has_text n); reflexivity.
Qed.

(** C5: in every scored record, [date_4] is 0 when [date_1] is 0; when
    [date_1] is 1, [date_4] is 0 if the originInfo elements have more than
    two dateCreated/dateIssued/copyrightDate children and some child of an
    originInfo carries [point="start"], and 1 otherwise; and [date] is the
    mean of [date_1], [date_2], [date_3], [date_4]. *)
Theorem date_4_rule (u i t c : pyval) (top : list xnode) (r : row) :
  score_record u i t c (mods_of top) = Ok r ->
  (date_1 r = 0 -> date_4 r = 0) /\
  (date_1 r = 1 ->
     (date_4 r = 0 <->
      (2 < length (select single_dates top))%nat /\ select point_start top <> []) /\
     (~ ((2 < length (select single_dates top))%nat /\ select point_start top <> [])
      -> date_4 r = 1)) /\
  (date r == (inject_Z (date_1 r) + inject_Z (date_2 r) + inject_Z (date_3 r)
              + inject_Z (date_4 r)) / 4)%Q.
Proof.
  intros H.
  pose proof (score_record_date _ _ _ _ _ _ H) as (m & _ & _ & H4).
  apply score_record_inv in H as (_ & _ & _ & _ & Hd & _).
  split; [|split].
  - intros H1. rewrite H1 in H4. by ok_inv H4.
  - intros H1. rewrite H1, multiplesingledates_tree in H4.
    change (1 =? 1) with true in H4. cbv iota in H4.
    apply Ok_inj in H4.
    destruct (select point_start top) as [|s ss].
    + change (0 <? Z.of_nat (@length xnode [])) with false in H4.
      rewrite andb_false_r in H4. rewrite <- H4.
      split; [split; [discriminate | intros [_ Hne]; by contradict Hne] | reflexivity].
    + change (0 <? Z.of_nat (length (s :: ss))) with true in H4.
      rewrite andb_true_r in H4.
      destruct (Z.ltb_spec 2 (Z.of_nat (length (select single_dates top))));
        rewrite <- H4.
      * split; [split; [intros _; split; [lia | discriminate] | reflexivity]|].
        intros Hc. exfalso. apply Hc. split; [lia | discriminate].
      * split; [split; [discriminate | intros [Hl _]; lia] | reflexivity].
  - rewrite Hd. unfold true_div. rewrite !inject_Z_plus.
    change (inject_Z 0) with 0%Q. change (inject_Z 4) with 4%Q. field.
Qed.

Lemma date_4_rule_witness :
  exists r : row,
    score_record sample_ids (PInt 11) (PStr "Item") (PInt 7)
                 (mods_of three_dates_one_start) = Ok r /\
    date_1 r = 1 /\ date_4 r = 0 /\
    (date r == (inject_Z (date_1 r) + inject_Z (date_2 r) + inject_Z (date_3 r)
                + inject_Z (date_4 r)) / 4)%Q.
Proof.
  eexists. split; [vm_compute; reflexivity|].
  pose proof (date_4_rule sample_ids (PInt 11) (PStr "Item") (PInt 7)
                three_dates_one_start _ eq_refl) as (_ & H1 & Hmean).
  split; [reflexivity|]. split; [|exact Hmean].
  apply (H1 eq_refl). split; [cbn; lia | discriminate].
Defined.

(** C7: in every scored record, [division] is the text of the first
    physicalLocation node with [type="division"], in document order, when
    [location_2] is 1 and there is such a node, and the string ["Null"]
    otherwise. *)
Theorem division_rule (u i t c : pyval) (top : list xnode) (r : row) :
  score_record u i t c (mods_of top) = Ok r ->
  (forall (n : xnode) (rest : list xnode),
      location_2 r = 1 ->
      select location_division top = n :: rest ->
      division r = PStr (text n)) /\
  (location_2 r <> 1 \/ select location_division top = [] ->
   division r = PStr "Null").
Proof.
  intros H.
  apply score_record_division in H as (m & n & Hm & H2 & Hn & Hdiv).
  cbn -[select] in Hm. apply Ok_inj in Hm. subst m.
  rewrite xpathexists_list in H2. cbn [py_len] in Hn. apply Ok_inj in Hn. subst n.
  rewrite length_map in *.
  destruct (select location_division top) as [|x rest] eqn:Hsel.
  - apply Ok_inj in H2. cbn in H2. rewrite <- H2 in *.
    cbn in Hdiv. apply Ok_inj in Hdiv. rewrite <- Hdiv.
    split; [intros ? ? _ Hx; discriminate Hx | reflexivity].
  - cbn [length] in *.
    assert (Hle : (1 <=? Z.of_nat (S (length rest))) = true) by (apply Z.leb_le; lia).
    assert (Hlt : (0 <? Z.of_nat (S (length rest))) = true) by (apply Z.ltb_lt; lia).
    rewrite Hle in H2. apply Ok_inj in H2. rewrite <- H2 in *.
    rewrite Hlt in Hdiv. change (1 =? 1) with true in Hdiv.
    cbn [andb map] in Hdiv.
    change (py_getitem (PList (to_dict x :: map to_dict rest)) (PInt 0))
      with (@Ok pyval (to_dict x)) in Hdiv.
    cbn [mbind py_bind] in Hdiv.
    pose proof (filter_head _ _ _ _ Hsel) as Hx.
    rewrite (division_text x Hx) in Hdiv.
    destruct (has_text x); [|discriminate Hdiv].
    apply Ok_inj in Hdiv. rewrite <- Hdiv.
    split.
    + intros n' rest' _ Heq. by injection Heq as <- _.
    + intros [Hne | Hnil]; [by contradict Hne | discriminate Hnil].
Qed.

Lemma division_rule_witness :
  exists r : row,
    score_record sample_ids (PInt 11) (PStr "Item") (PInt 7)
                 (mods_of (full_doc "Map Division")) = Ok r /\
    division r = PStr "Map Division".
Proof.
  eexists. split; [vm_compute; reflexivity|].
  pose proof (division_rule sample_ids (PInt 11) (PStr "Item") (PInt 7)
                (full_doc "Map Division") _ eq_refl) as (H1 & _).
  apply (H1 (leaf "physicalLocation" [("type", "division")] "Map Division")
            []); reflexivity.
Defined.

(** ** [inList] *)

Lemma py_in_str (s : string) (allowed : list string) :
  py_in (PStr s) (map PStr allowed) = true <-> In s allowed.
Proof.
  unfold py_in. induction allowed as [|a l IH]; cbn; [split; [discriminate | tauto]|].
  rewrite orb_true_iff, IH, String.eqb_eq. split; intros [H | H]; auto.
Qed.

Lemma inList_present (e : Element) (allowed xs : list pyval) (t : pyval) :
  el_exists e = Ok True_ ->
  el_text e = Ok t ->
  py_iter t = Ok xs ->
  inList e allowed = Ok (if forallb (fun i => py_in i allowed) xs then 1 else 0).
Proof.
  unfold inList. intros -> -> Hi. cbn. rewrite Hi. cbn.
  by destruct (forallb _ _).
Qed.

(** C8: [inList] returns 0 when the element is absent; when it is present
    and its text accessor returns the strings [values], [inList] returns 1
    exactly when every one of them is a member of [allowed] (the same string,
    case included), and returns 0 as soon as one of them is not. *)
Theorem inList_rule (e : Element) (allowed : list string) :
  (el_exists e = Ok False_ -> inList e (map PStr allowed) = Ok 0) /\
  (forall values : list string,
      el_exists e = Ok True_ ->
      el_text e = Ok (PList (map PStr values)) ->
      (inList e (map PStr allowed) = Ok 1 <->
       forall v, In v values -> In v allowed) /\
      ((exists v, In v values /\ ~ In v allowed) ->
       inList e (map PStr allowed) = Ok 0)).
Proof.
  split.
  - unfold inList. intros ->. reflexivity.
  - intros values He Ht.
    rewrite (inList_present e _ (map PStr values) _ He Ht eq_refl).
    destruct (forallb _ _) eqn:Hall.
    + rewrite forallb_forall in Hall.
      assert (Hmem : forall v, In v values -> In v allowed).
      { intros v Hv. apply py_in_str, Hall, in_map, Hv. }
      split; [tauto|]. intros (v & Hv & Hnot). exfalso. auto.
    + split; [|reflexivity]. split; [discriminate|].
      intros Hmem. exfalso.
      assert (Ht' : forallb (fun i => py_in i (map PStr allowed)) (map PStr values) = true).
      { apply forallb_forall. intros x Hx. apply in_map_iff in Hx as (v & <- & Hv).
        apply py_in_str. auto. }
      congruence.
Qed.

Lemma inList_rule_witness :
  inList (element "typeOfResource"
            [leaf "typeOfResource" [] "text"; leaf "typeOfResource" [] "Text"])
         resource_types = Ok 0.
Proof.
  pose proof (inList_rule
           (element "typeOfResource"
              [leaf "typeOfResource" [] "text"; leaf "typeOfResource" [] "Text"])
           ["text"; "cartographic"; "notated music"; "sound recording-musical";
            "sound recording-nonmusical"; "sound recording"; "still image";
            "moving image"; "three dimensional object"; "software, multimedia";
            "mixed material"]) as [_ H].
  apply (H ["text"; "Text"] eq_refl eq_refl).
  exists "Text". split; [right; left; reflexivity|].
  cbn. intros Hin. decompose [or] Hin; try discriminate; assumption.
Defined.

Lemma score_record_typeOfResource (u i t c : pyval) (d : Mods) (r : row) :
  score_record u i t c d = Ok r ->
  inList (modsqual.typeOfResource d) resource_types = Ok (typeOfResource r).
Proof.
  unfold score_record. intros H. repeat bind_inv H. ok_inv H. cbn. assumption.
Qed.

(** C10: when the element exists and its text accessor returns an empty
    sequence, [inList] returns 1 whatever the allowed vocabulary; so a scored
    record whose typeOfResource element is present and yields no text value
    has [typeOfResource] = 1. *)
Theorem inList_no_values (d : Mods) (t : pyval) :
  el_exists (modsqual.typeOfResource d) = Ok True_ ->
  el_text (modsqual.typeOfResource d) = Ok t ->
  py_iter t = Ok [] ->
  (forall allowed : list pyval,
      inList (modsqual.typeOfResource d) allowed = Ok 1) /\
  (forall (u i ty c : pyval) (r : row),
      score_record u i ty c d = Ok r -> typeOfResource r = 1).
Proof.
  intros He Ht Hi. split.
  - intros allowed. by rewrite (inList_present _ allowed [] t He Ht Hi).
  - intros u i ty c r H. apply score_record_typeOfResource in H.
    rewrite (inList_present _ _ [] t He Ht Hi) in H. by apply Ok_inj in H.
Qed.

Lemma inList_no_values_witness :
  inList (modsqual.typeOfResource silent_doc) [] = Ok 1 /\
  exists r : row,
    score_record sample_ids (PInt 11) (PStr "Item") (PInt 7) silent_doc = Ok r /\
    typeOfResource r = 1.
Proof.
  pose proof (inList_no_values silent_doc (PList []) eq_refl eq_refl eq_refl)
    as [H1 H2].
  split; [apply H1|].
  eexists. split; [vm_compute; reflexivity|]. eapply H2. vm_compute. reflexivity.
Defined.

(** ** [discretedatetypes] *)


Lemma first_key_to_dict (n : xnode) : first_key (to_dict n) = Ok (tag n).
Proof. reflexivity. Qed.

Lemma count_datetypes_nodes (nodes : list xnode) (counts : gmap string Z) :
  count_datetypes (map to_dict nodes) counts = Ok (tally nodes counts).
Proof.
  revert counts. induction nodes as [|n ns IH]; intros counts; [reflexivity|].
  cbn [map count_datetypes]. rewrite first_key_to_dict. cbn [mbind py_bind].
  apply IH.
Qed.

Lemma tally_lookup (nodes : list xnode) (counts : gmap string Z) (k : string) :
  tally nodes counts !! k
  = match counts !! k, length (group k nodes) with
    | Some v, g => Some (v + Z.of_nat g)
    | None, O => None
    | None, S g => Some (Z.of_nat (S g))
    end.
Proof.
  revert counts. induction nodes as [|n ns IH]; intros counts.
  - change (tally [] counts) with counts. cbn [group List.filter length].
    destruct (counts !! k) as [v|]; [|reflexivity].
    change (Z.of_nat 0) with 0. by rewrite Z.add_0_r.
  - change (tally (n :: ns) counts) with (tally ns (counter_incr (tag n) counts)).
    rewrite IH. unfold counter_incr, group, named. cbn [List.filter].
    destruct (String.eqb_spec (tag n) k) as [->|Hne].
    + rewrite lookup_insert_eq. cbn [length].
      destruct (counts !! k); cbn [default id]; apply (f_equal Some); lia.
    + rewrite lookup_insert_ne by exact Hne. reflexivity.
Qed.

Lemma tally_empty_lookup (nodes : list xnode) (k : string) (v : Z) :
  tally nodes ∅ !! k = Some v <->
  v = Z.of_nat (length (group k nodes)) /\ group k nodes <> [].
Proof.
  rewrite tally_lookup, lookup_empty.
  destruct (group k nodes) as [|x g]; cbn [length].
  - split; [discriminate | intros [_ H]; by contradict H].
  - split; [intros H; split; [congruence | discriminate] | intros [-> _]; reflexivity].
Qed.

Lemma group_nonempty (k : string) (nodes : list xnode) :
  group k nodes <> [] <-> In k (map tag nodes).
Proof.
  unfold group, named. induction nodes as [|n ns IH]; cbn; [tauto|].
  destruct (String.eqb_spec (tag n) k) as [->|Hne].
  - split; [auto | discriminate].
  - rewrite IH. split; [auto | intros [H | H]; [by contradict Hne | exact H]].
Qed.

Lemma tally_size (nodes : list xnode) :
  (0 <? Z.of_nat (size (tally nodes ∅))) = negb (bool_decide (nodes = [])).
Proof.
  destruct nodes as [|n ns]; [reflexivity|].
  rewrite bool_decide_eq_false_2 by discriminate. cbn [negb].
  apply Z.ltb_lt. apply inj_lt with (n := 0%nat).
  assert (Hn : tally (n :: ns) ∅ !! tag n
               = Some (Z.of_nat (length (group (tag n) (n :: ns))))).
  { apply tally_empty_lookup. split; [reflexivity|].
    apply group_nonempty. left. reflexivity. }
  destruct (size (tally (n :: ns) ∅)) eqn:Hs; [|lia].
  apply map_size_empty_iff in Hs. rewrite Hs, lookup_empty in Hn. discriminate Hn.
Qed.

Lemma tally_all_one (nodes : list xnode) :
  forallb (fun xv => snd xv =? 1) (map_to_list (tally nodes ∅)) = true <->
  forall k, In k (map tag nodes) -> length (group k nodes) = 1%nat.
Proof.
  rewrite forallb_forall. split.
  - intros H k Hk. apply group_nonempty in Hk.
    specialize (H (k, Z.of_nat (length (group k nodes)))).
    cbn [snd] in H. apply Z.eqb_eq in H; [lia|].
    apply list_elem_of_In, elem_of_map_to_list, tally_empty_lookup. auto.
  - intros H [k v] Hkv. cbn [snd].
    apply list_elem_of_In, elem_of_map_to_list, tally_empty_lookup in Hkv
      as [-> Hne].
    apply group_nonempty in Hne. rewrite (H k Hne). reflexivity.
Qed.

Lemma discretedatetypes_nodes (nodes : list xnode) :
  discretedatetypes (PList (map to_dict nodes))
  = Ok (if negb (bool_decide (nodes = []))
           && forallb (fun xv => snd xv =? 1) (map_to_list (tally nodes ∅))
        then 1 else 0).
Proof.
  unfold discretedatetypes, discretedatetypes_try. cbn [py_iter mbind py_bind].
  rewrite count_datetypes_nodes. cbn [mbind py_bind]. rewrite tally_size.
  destruct (negb _); [|reflexivity].
  cbn [andb]. by destruct (forallb _ _).
Qed.

(** C9: [discretedatetypes] groups the matched nodes by their key and
    returns 1 exactly when there is at least one group and every group has
    one member, and 0 otherwise; two dateCreated nodes with one dateIssued
    node give 0, one node of each type gives 1. *)
Theorem discretedatetypes_rule (nodes : list xnode) :
  (discretedatetypes (PList (map to_dict nodes)) = Ok 1 <->
   nodes <> [] /\
   forall k, In k (map tag nodes) -> length (group k nodes) = 1%nat) /\
  (discretedatetypes (PList (map to_dict nodes)) = Ok 1 \/
   discretedatetypes (PList (map to_dict nodes)) = Ok 0) /\
  discretedatetypes (PList (map to_dict two_created_one_issued)) = Ok 0 /\
  discretedatetypes (PList (map to_dict one_of_each)) = Ok 1.
Proof.
  split; [|split; [|split; reflexivity]].
  - rewrite discretedatetypes_nodes, <- tally_all_one.
    destruct (forallb _ _); case_bool_decide as Hnil; cbn; split;
      try tauto; try discriminate; intros [? ?]; done.
  - rewrite discretedatetypes_nodes. destruct (_ && _); auto.
Qed.

(** * Further properties of the script *)

(** ** The counting primitives *)

Lemma try_except_value {A} (body : py A) (d : A) :
  try_except body (mret d) = Ok (match body with Ok a => a | Raise _ => d end).
Proof. by destruct body. Qed.

Lemma xpathexists_value (m : pyval) (k : Z) :
  xpathexists m k
  = Ok (match py_len m with Ok n => if k <=? n then 1 else 0 | Raise _ => 0 end).
Proof.
  unfold xpathexists, xpathexists_try. rewrite try_except_value.
  destruct (py_len m) as [n|e]; cbn; [by destruct (k <=? n) | reflexivity].
Qed.

Lemma xpathexactlyone_value (m : pyval) :
  xpathexactlyone m
  = Ok (match py_len m with Ok n => if n =? 1 then 1 else 0 | Raise _ => 0 end).
Proof.
  unfold xpathexactlyone, xpathexactlyone_try. rewrite try_except_value.
  destruct (py_len m) as [n|e]; cbn; [by destruct (n =? 1) | reflexivity].
Qed.

Lemma xpathmax_value (m : pyval) (k : Z) :
  xpathmax m k
  = Ok (match py_len m with Ok n => if n <=? k then 1 else 0 | Raise _ => 0 end).
Proof.
  unfold xpathmax, xpathmax_try. rewrite try_except_value.
  destruct (py_len m) as [n|e]; cbn; [by destruct (n <=? k) | reflexivity].
Qed.

(** X1: on every value, [xpathexactlyone] scores 1 exactly when both
    [xpathexists] (with [min=1]) and [xpathmax] (with [max=1]) score 1; a
    value that has no length scores 0 in all three. *)
Theorem exactlyone_is_exists_and_max (m : pyval) :
  (xpathexactlyone m = Ok 1 <->
   xpathexists m 1 = Ok 1 /\ xpathmax m 1 = Ok 1) /\
  (raises (py_len m) = true ->
   xpathexactlyone m = Ok 0 /\ xpathexists m 1 = Ok 0 /\ xpathmax m 1 = Ok 0).
Proof.
  rewrite xpathexactlyone_value, xpathexists_value, xpathmax_value.
  destruct (py_len m) as [n|e]; cbn [raises].
  - split; [|discriminate].
    destruct (Z.eqb_spec n 1), (Z.leb_spec 1 n), (Z.leb_spec n 1);
      split; try tauto; try lia; try discriminate;
      intros [? ?]; discriminate.
  - split; [|auto]. split; [discriminate | intros [? _]; discriminate].
Qed.

Lemma exactlyone_is_exists_and_max_witness :
  xpathexactlyone PNone = Ok 0 /\ xpathexists PNone 1 = Ok 0 /\
  xpathmax PNone 1 = Ok 0.
Proof. apply (exactlyone_is_exists_and_max PNone). reflexivity. Defined.

(** X2: on a value that has a length, "at most [k]" is the negation of "at
    least [k+1]": [xpathmax m k] scores 1 exactly when [xpathexists m (k+1)]
    scores 0.  On a value without a length both score 0. *)
Theorem max_complements_exists (m : pyval) (k n : Z) :
  py_len m = Ok n ->
  (xpathmax m k = Ok 1 <-> xpathexists m (k + 1) = Ok 0) /\
  (xpathmax m k = Ok 0 <-> xpathexists m (k + 1) = Ok 1).
Proof.
  intros Hn. rewrite xpathexists_value, xpathmax_value, Hn.
  destruct (Z.leb_spec n k), (Z.leb_spec (k + 1) n);
    repeat split; intros; try reflexivity; try discriminate; lia.
Qed.

Lemma max_complements_exists_witness :
  xpathmax (PList [PNone; PNone]) 1 = Ok 0 <->
  xpathexists (PList [PNone; PNone]) (1 + 1) = Ok 1.
Proof.
  apply (max_complements_exists (PList [PNone; PNone]) 1 2). reflexivity.
Defined.

(** X3: lowering the threshold of [xpathexists] never loses a point, and
    raising the bound of [xpathmax] never loses a point. *)
Theorem thresholds_monotone (m : pyval) (k k' : Z) :
  k <= k' ->
  (xpathexists m k' = Ok 1 -> xpathexists m k = Ok 1) /\
  (xpathmax m k = Ok 1 -> xpathmax m k' = Ok 1).
Proof.
  intros Hk. rewrite !xpathexists_value, !xpathmax_value.
  destruct (py_len m) as [n|e]; [|split; discriminate].
  destruct (Z.leb_spec k' n), (Z.leb_spec k n), (Z.leb_spec n k), (Z.leb_spec n k');
    split; intros; try reflexivity; try discriminate; lia.
Qed.

Lemma thresholds_monotone_witness :
  (xpathexists (PList [PNone; PNone]) 2 = Ok 1 ->
   xpathexists (PList [PNone; PNone]) 1 = Ok 1) /\
  (xpathmax (PList [PNone; PNone]) 2 = Ok 1 ->
   xpathmax (PList [PNone; PNone]) 3 = Ok 1).
Proof.
  split.
  - apply (thresholds_monotone (PList [PNone; PNone]) 1 2). lia.
  - apply (thresholds_monotone (PList [PNone; PNone]) 2 3). lia.
Defined.

(** ** [xpathvaluesmatch] *)

Lemma py_all_pure {A} (f : A -> bool) (l : list A) :
  py_all (fun x => Ok (f x)) l = Ok (forallb f l).
Proof.
  induction l as [|x l IH]; [reflexivity|]. cbn. destruct (f x); [exact IH | reflexivity].
Qed.

Lemma seq_index_head {A} (x : A) (l : list A) : seq_index (x :: l) 0 = Ok x.
Proof.
  unfold seq_index. cbn [length Z.ltb Z.compare].
  assert (H : (0 <? Z.of_nat (S (length l))) = true) by (apply Z.ltb_lt; lia).
  rewrite H. reflexivity.
Qed.

Lemma xpathvaluesmatch_list (l : list pyval) :
  xpathvaluesmatch (PList l)
  = Ok (match l with
        | [] => 0
        | x0 :: _ => if forallb (fun x => py_eq x x0) l then 1 else 0
        end).
Proof.
  unfold xpathvaluesmatch, xpathvaluesmatch_try. rewrite try_except_value.
  destruct l as [|x0 rest]; [reflexivity|].
  cbn [py_len mbind py_bind py_iter].
  assert (H : (0 <? Z.of_nat (length (x0 :: rest))) = true) by (apply Z.ltb_lt; cbn; lia).
  rewrite H.
  assert (Hall : py_all (fun x => m0 ← py_getitem (PList (x0 :: rest)) (PInt 0);
                                  mret (py_eq x m0)) (x0 :: rest)
                 = Ok (forallb (fun x => py_eq x x0) (x0 :: rest))).
  { rewrite <- py_all_pure. cbn [py_getitem]. rewrite seq_index_head. reflexivity. }
  rewrite Hall. cbn [mbind py_bind]. by destruct (forallb _ _).
Qed.

Lemma py_eq_refl (v : pyval) : py_eq v v = true.
Proof.
  revert v. fix py_eq_refl 1. intros v.
  destruct v as [| b | z | q | s | l | d]; cbn.
  - reflexivity.
  - by destruct b.
  - apply Z.eqb_refl.
  - apply Qeq_bool_refl.
  - apply String.eqb_refl.
  - induction l as [|x l IH]; [reflexivity|].
    rewrite (py_eq_refl x). exact IH.
  - induction d as [|[k x] d IH]; [reflexivity|].
    rewrite String.eqb_refl, (py_eq_refl x). exact IH.
Qed.

(** X4: on a list of matches, [xpathvaluesmatch] scores 1 exactly when the
    list is not empty and every match equals (Python's [==]) the first one;
    it scores 0 on the empty list. *)
Theorem valuesmatch_iff_all_equal_first (l : list pyval) :
  (xpathvaluesmatch (PList l) = Ok 1 <->
   exists x0 rest, l = x0 :: rest /\ forall x, In x l -> py_eq x x0 = true) /\
  (xpathvaluesmatch (PList l) = Ok 1 \/ xpathvaluesmatch (PList l) = Ok 0).
Proof.
  rewrite xpathvaluesmatch_list. destruct l as [|x0 rest].
  - split; [|auto]. split; [discriminate | intros (? & ? & H & _); discriminate H].
  - destruct (forallb _ _) eqn:Hall.
    + split; [|auto]. split; [|reflexivity]. intros _. exists x0, rest.
      split; [reflexivity|]. by apply forallb_forall.
    + split; [|auto]. split; [discriminate|].
      intros (y0 & rest' & Heq & Hy). injection Heq as <- <-.
      apply forallb_forall in Hy. congruence.
Qed.

(** X5: when all the matches are copies of one value (in particular when
    there is a single match), [xpathvaluesmatch] scores 1. *)
Theorem valuesmatch_of_copies (x : pyval) (n : nat) :
  xpathvaluesmatch (PList (repeat x (S n))) = Ok 1.
Proof.
  rewrite xpathvaluesmatch_list. cbn [repeat].
  assert (H : forallb (fun y => py_eq y x) (x :: repeat x n) = true).
  { apply forallb_forall. intros y Hy.
    assert (y = x) as -> by (destruct Hy as [<- | Hy]; [reflexivity | by apply repeat_spec in Hy]).
    apply py_eq_refl. }
  by rewrite H.
Qed.

(** ** [xpathtextexists] *)

Lemma text_long_enough_node (min : Z) (n : xnode) :
  text_long_enough min (to_dict n)
  = if has_text n then Ok (min <=? Z.of_nat (String.length (text n)))
    else Raise KeyError.
Proof.
  unfold text_long_enough, to_dict.
  cbn [py_items map fst snd mbind py_bind py_getitem].
  rewrite seq_index_head. cbn [mbind py_bind py_getitem].
  change (seq_index [PStr (tag n);
                     PDict (map (fun kv => ("@" +:+ fst kv, PStr (snd kv))) (attrs n)
                            ++ (if has_text n then [("#text", PStr (text n))] else []))] 1)
    with (@Ok pyval
            (PDict (map (fun kv => ("@" +:+ fst kv, PStr (snd kv))) (attrs n)
                    ++ (if has_text n then [("#text", PStr (text n))] else [])))).
  cbn [mbind py_bind py_getitem]. rewrite attrs_hide_no_text.
  destruct (has_text n); reflexivity.
Qed.

Lemma py_all_text (min : Z) (nodes : list xnode) :
  match py_all (text_long_enough min) (map to_dict nodes) with
  | Ok b => b
  | Raise _ => false
  end
  = forallb (fun n => has_text n && (min <=? Z.of_nat (String.length (text n))))
            nodes.
Proof.
  induction nodes as [|n ns IH]; [reflexivity|].
  cbn [map py_all forallb]. rewrite text_long_enough_node.
  destruct (has_text n); [|reflexivity]. cbn [mbind py_bind andb].
  destruct (min <=? _); [exact IH | reflexivity].
Qed.

(** X6: on matched nodes, [xpathtextexists] scores 1 exactly when every
    node has a text value of length at least [min]; one node without text,
    or with a shorter text, gives 0.  An empty collection scores 1: nothing
    requires that an instance exists. *)
Theorem textexists_iff_every_text_long (nodes : list xnode) (min : Z) :
  (xpathtextexists (PList (map to_dict nodes)) min = Ok 1 <->
   forall n, In n nodes ->
             has_text n = true /\ min <= Z.of_nat (String.length (text n))) /\
  (xpathtextexists (PList (map to_dict nodes)) min = Ok 1 \/
   xpathtextexists (PList (map to_dict nodes)) min = Ok 0) /\
  xpathtextexists (PList []) min = Ok 1.
Proof.
  assert (Hval : xpathtextexists (PList (map to_dict nodes)) min
                 = Ok (if forallb (fun n => has_text n
                                            && (min <=? Z.of_nat (String.length (text n))))
                                  nodes
                       then 1 else 0)).
  { unfold xpathtextexists, xpathtextexists_try. rewrite try_except_value.
    cbn [py_iter mbind py_bind]. rewrite <- py_all_text.
    destruct (py_all _ _) as [[|]|e]; reflexivity. }
  rewrite Hval. split; [|split; [|reflexivity]].
  - destruct (forallb _ _) eqn:Hall.
    + split; [|reflexivity]. intros _ n Hn.
      rewrite forallb_forall in Hall. specialize (Hall n Hn).
      apply andb_true_iff in Hall as [? ?]. split; [assumption | by apply Z.leb_le].
    + split; [discriminate|]. intros H. exfalso.
      assert (Ht : forallb (fun n => has_text n
                                     && (min <=? Z.of_nat (String.length (text n))))
                           nodes = true).
      { apply forallb_forall. intros n Hn. destruct (H n Hn) as [-> Hle].
        by apply Z.leb_le in Hle as ->. }
      congruence.
  - destruct (forallb _ _); auto.
Qed.

(** ** Scores that depend on one another *)

Lemma score_record_location (u i t c : pyval) (d : Mods) (r : row) :
  score_record u i t c d = Ok r ->
  exists m : pyval,
    el_match (modsqual.location d) location_division = Ok m /\
    xpathexists m 1 = Ok (location_2 r) /\
    xpathvaluesmatch m = Ok (location_4 r).
Proof.
  unfold score_record. intros H. repeat bind_inv H. ok_inv H. cbn.
  same_query.
  match goal with
  | E : el_match _ location_division = Ok ?m |- _ => exists m
  end.
  repeat split; assumption.
Qed.

Lemma valuesmatch_needs_a_match (m : pyval) :
  xpathvaluesmatch m = Ok 1 -> xpathexists m 1 = Ok 1.
Proof.
  unfold xpathvaluesmatch, xpathvaluesmatch_try. rewrite try_except_value.
  rewrite xpathexists_value.
  destruct (py_len m) as [n|e]; cbn [mbind py_bind]; [|discriminate].
  destruct (Z.ltb_spec 0 n); [|discriminate].
  intros _. destruct (Z.leb_spec 1 n); [reflexivity | lia].
Qed.

(** X7: whatever the facade returns, a scored record cannot earn
    [location_4] without [location_2], nor [date_4] without [date_1]; and
    its division is ["Null"] whenever [location_2] is 0. *)
Theorem dependent_scores (u i t c : pyval) (d : Mods) (r : row) :
  score_record u i t c d = Ok r ->
  (location_4 r = 1 -> location_2 r = 1) /\
  (date_4 r = 1 -> date_1 r = 1) /\
  (location_2 r = 0 -> division r = PStr "Null").
Proof.
  intros H. split; [|split].
  - apply score_record_location in H as (m & _ & H2 & H4).
    intros H1. rewrite H1 in H4. apply valuesmatch_needs_a_match in H4.
    rewrite H4 in H2. by apply Ok_inj in H2.
  - apply score_record_date in H as (m & _ & _ & H4).
    intros H1. destruct (Z.eqb_spec (date_1 r) 1); [assumption|].
    apply Ok_inj in H4. lia.
  - apply score_record_division in H as (m & n & _ & _ & _ & Hd).
    intros H0. rewrite H0 in Hd. cbn [Z.eqb andb] in Hd. by apply Ok_inj in Hd.
Qed.

Lemma dependent_scores_witness :
  exists r : row,
    score_record sample_ids (PInt 11) (PStr "Item") (PInt 7) silent_doc = Ok r /\
    division r = PStr "Null".
Proof.
  eexists. split; [vm_compute; reflexivity|].
  apply (dependent_scores sample_ids (PInt 11) (PStr "Item") (PInt 7)
           silent_doc _ eq_refl).
  reflexivity.
Defined.

(** ** The extreme totals *)

Lemma binary_Q (s : Z) :
  binary s ->
  (0 <= inject_Z s)%Q /\ (inject_Z s <= 1)%Q /\
  ((inject_Z s == 1)%Q -> s = 1) /\ ((inject_Z s == 0)%Q -> s = 0).
Proof.
  intros [-> | ->]; repeat split; try (unfold Qle; cbn; lia);
    intros H; try reflexivity; unfold Qeq in H; cbn in H; lia.
Qed.

Lemma total_as_sum (u i t c : pyval) (d : Mods) (r : row) :
  score_record u i t c d = Ok r ->
  (20 * total_min_mand r
   == 10 * (inject_Z (title_1 r) + inject_Z (title_2 r))
      + 20 * inject_Z (typeOfResource r)
      + 10 * (inject_Z (genre_1 r) + inject_Z (genre_2 r))
      + 5 * (inject_Z (date_1 r) + inject_Z (date_2 r) + inject_Z (date_3 r)
             + inject_Z (date_4 r))
      + 20 * inject_Z (identifier r)
      + 4 * (inject_Z (location_1 r) + inject_Z (location_2 r)
             + inject_Z (location_3 r) + inject_Z (location_4 r)
             + inject_Z (location_5 r)))%Q.
Proof.
  intros H. apply score_record_inv in H as (_ & _ & Ht & Hg & Hd & Hl & Htot).
  rewrite Htot, q_sum_six, Ht, Hg, Hd, Hl. unfold true_div.
  rewrite !inject_Z_plus.
  change (inject_Z 0) with 0%Q. change (inject_Z 2) with 2%Q.
  change (inject_Z 4) with 4%Q. change (inject_Z 5) with 5%Q. field.
Qed.

(** X8: a scored record has the total 6 exactly when all fifteen pass/fail
    scores are 1, and the total 0 exactly when all fifteen are 0. *)
Theorem extreme_totals (u i t c : pyval) (d : Mods) (r : row) :
  score_record u i t c d = Ok r ->
  ((total_min_mand r == 6)%Q <->
   Forall (fun s => s = 1)
     [title_1 r; title_2 r; typeOfResource r; genre_1 r; genre_2 r; date_1 r;
      date_2 r; date_3 r; date_4 r; identifier r; location_1 r; location_2 r;
      location_3 r; location_4 r; location_5 r]) /\
  ((total_min_mand r == 0)%Q <->
   Forall (fun s => s = 0)
     [title_1 r; title_2 r; typeOfResource r; genre_1 r; genre_2 r; date_1 r;
      date_2 r; date_3 r; date_4 r; identifier r; location_1 r; location_2 r;
      location_3 r; location_4 r; location_5 r]).
Proof.
  intros H. pose proof (total_as_sum _ _ _ _ _ _ H) as Htot.
  apply score_record_inv in H as (_ & Hb & _).
  destruct Hb as (b1 & b2 & b3 & b4 & b5 & b6 & b7 & b8 & b9 & b10 & b11
                  & b12 & b13 & b14 & b15).
  apply binary_Q in b1 as (? & ? & ? & ?), b2 as (? & ? & ? & ?),
    b3 as (? & ? & ? & ?), b4 as (? & ? & ? & ?), b5 as (? & ? & ? & ?),
    b6 as (? & ? & ? & ?), b7 as (? & ? & ? & ?), b8 as (? & ? & ? & ?),
    b9 as (? & ? & ? & ?), b10 as (? & ? & ? & ?), b11 as (? & ? & ? & ?),
    b12 as (? & ? & ? & ?), b13 as (? & ? & ? & ?), b14 as (? & ? & ? & ?),
    b15 as (? & ? & ? & ?).
  split; split.
  - intros Hsix. rewrite Hsix in Htot.
    repeat (apply Forall_cons_2;
            [match goal with
             | Hx : (inject_Z ?s == 1)%Q -> ?s = 1 |- ?s = 1 => apply Hx; lra
             end|]).
    apply Forall_nil_2.
  - intros Hall. repeat match goal with
                        | Hf : Forall _ (_ :: _) |- _ =>
                            let Hs := fresh "Hs" in
                            apply Forall_cons in Hf as [Hs Hf]; rewrite Hs in Htot
                        end.
    change (inject_Z 1) with 1%Q in Htot. change (inject_Z 0) with 0%Q in Htot.
    lra.
  - intros Hzero. rewrite Hzero in Htot.
    repeat (apply Forall_cons_2;
            [match goal with
             | Hx : (inject_Z ?s == 0)%Q -> ?s = 0 |- ?s = 0 => apply Hx; lra
             end|]).
    apply Forall_nil_2.
  - intros Hall. repeat match goal with
                        | Hf : Forall _ (_ :: _) |- _ =>
                            let Hs := fresh "Hs" in
                            apply Forall_cons in Hf as [Hs Hf]; rewrite Hs in Htot
                        end.
    change (inject_Z 1) with 1%Q in Htot. change (inject_Z 0) with 0%Q in Htot.
    lra.
Qed.

Lemma extreme_totals_witness :
  exists r : row,
    score_record sample_ids (PInt 11) (PStr "Item") (PInt 7)
                 (mods_of (full_doc "Map Division")) = Ok r /\
    (total_min_mand r == 6)%Q /\ location_5 r = 1.
Proof.
  eexists. split; [vm_compute; reflexivity|].
  pose proof (extreme_totals sample_ids (PInt 11) (PStr "Item") (PInt 7)
                (mods_of (full_doc "Map Division")) _ eq_refl) as [H6 _].
  split; [apply H6; repeat (apply Forall_cons_2; [reflexivity|]); apply Forall_nil_2
         | reflexivity].
Defined.

(** ** The collection id and the two exclusion lists *)

(** X9: resolving the collection id never raises.  The id is the value
    under [mms_collection_id] when the record has a [solr_doc_hash] that
    decodes to an object with that key; in every other case (no
    [solr_doc_hash], text that does not decode, a decoded value that is no
    object, an object without the key) it is the empty string. *)
Theorem resolve_coll_id_cases (json_loads : pyval -> py pyval) (line : pyval) :
  resolve_coll_id json_loads line
  = Ok (match py_getitem line (PStr "solr_doc_hash") with
        | Ok h =>
            match json_loads h with
            | Ok (PDict d) => default (PStr "") (dict_get d "mms_collection_id")
            | _ => PStr ""
            end
        | Raise _ => PStr ""
        end).
Proof.
  unfold resolve_coll_id. rewrite try_except_value. f_equal.
  destruct (py_getitem line (PStr "solr_doc_hash")) as [h|e]; [|reflexivity].
  cbn [mbind py_bind].
  destruct (json_loads h) as [[| b | z | q | s | l | d]|e]; try reflexivity.
  - cbn. by destruct (is_substring _ _).
  - cbn. by destruct (existsb _ _).
  - cbn [mbind py_bind py_contains py_getitem].
    destruct (dict_get d "mms_collection_id") as [v|]; reflexivity.
Qed.

Lemma py_in_strings (d : pyval) (l : list string) :
  py_in d (map PStr l) = true <-> exists s, d = PStr s /\ In s l.
Proof.
  destruct d as [| b | z | q | s | x | x].
  5: { rewrite py_in_str. split; [eauto|].
       intros (s' & Hs & Hin). by injection Hs as ->. }
  all: split; [|intros (s & Hs & _); discriminate Hs].
  all: intros H; exfalso; unfold py_in in H;
    induction l as [|a l IH]; cbn in H; [discriminate H | exact (IH H)].
Qed.

(** X10: the two exclusion lists match exactly.  A collection is left out
    only when its id is a number equal to 25778 or 25777, be it an integer
    or a float such as 25778.0; the same digits as a string are kept.  A
    division is left out only when it is one of the four strings of
    [ignore_divisions], character for character. *)
Theorem exclusions_are_exact (c d : pyval) :
  (collection_kept c = false <->
   c = PInt 25778 \/ c = PInt 25777 \/
   exists q, c = PFloat q /\ (q == 25778 \/ q == 25777)%Q) /\
  (forall s : string, collection_kept (PStr s) = true) /\
  collection_kept (PFloat 25778) = false /\
  (py_in d ignore_divisions = true <->
   exists s, d = PStr s /\
     In s ["External, not an NYPL item, it comes from some other institution. (LEGACY; Please do not use)";
           "No Division, NYPL item, but not associated with any one Division, e.g. NYPL Art Work";
           "Comm, Marketing, and Business Dev";
           "Reference and Research Services"]).
Proof.
  split; [|split; [|split]].
  - unfold collection_kept, py_in, ignore.
    destruct c as [| b | z | q | s | l | l']; cbn;
      try (split; [discriminate
                  | intros [H | [H | (q' & H & _)]]; discriminate H]).
    + destruct b; cbn; split; try discriminate;
        intros [H | [H | (q' & H & _)]]; discriminate H.
    + rewrite !orb_false_r.
      destruct (Z.eqb_spec z 25778) as [Hz|H1], (Z.eqb_spec z 25777) as [Hz'|H2];
        cbn; split; intros H; try reflexivity; try discriminate H;
        try (left; by rewrite Hz); try (right; left; by rewrite Hz').
      destruct H as [H | [H | (q' & H & _)]]; try discriminate H; injection H; lia.
    + rewrite !orb_false_r.
      change (inject_Z 25778) with 25778%Q. change (inject_Z 25777) with 25777%Q.
      destruct (Qeq_bool q 25778) eqn:E1, (Qeq_bool q 25777) eqn:E2; cbn;
        split; intros H; try reflexivity; try discriminate H.
      * right. right. exists q. split; [reflexivity|]. left. by apply Qeq_bool_iff.
      * right. right. exists q. split; [reflexivity|]. left. by apply Qeq_bool_iff.
      * right. right. exists q. split; [reflexivity|]. right. by apply Qeq_bool_iff.
      * destruct H as [H | [H | (q' & H & Hq)]]; try discriminate H.
        injection H as <-. apply Qeq_bool_neq in E1, E2. tauto.
  - intros s. reflexivity.
  - reflexivity.
  - apply py_in_strings.
Qed.

(** ** Records that lack a key, records of an ignored collection *)




(** X12: a record left out for its collection is left out before its XML is
    looked at: whatever the document constructor does with the payload, even
    raise, the verdict is the same and the two files are left as they were. *)
Theorem ignored_collection_skips_parsing json_loads new_Mods new_Mods'
    (line : string) (idx : nat) (st : files) :
  evaluate json_loads new_Mods line = Ok NotScored ->
  evaluate json_loads new_Mods' line = Ok NotScored /\
  step json_loads new_Mods' idx line st = st.
Proof.
  intros H.
  assert (He : evaluate json_loads new_Mods' line = Ok NotScored).
  { unfold evaluate in *.
    bind_inv H as parsed Hp. rewrite Hp. cbn [mbind py_bind].
    bind_inv H as a Ha. rewrite Ha. cbn [mbind py_bind].
    bind_inv H as b Hb. rewrite Hb. cbn [mbind py_bind].
    bind_inv H as c Hc. rewrite Hc. cbn [mbind py_bind].
    bind_inv H as x Hx. rewrite Hx. cbn [mbind py_bind].
    bind_inv H as co Hco. rewrite Hco. cbn [mbind py_bind].
    destruct (collection_kept co); [|reflexivity].
    bind_inv H as m Hm. bind_inv H as r Hr.
    destruct (negb _); discriminate H. }
  split; [exact He|]. unfold step. by rewrite He.
Qed.

Lemma ignored_collection_skips_parsing_witness :
  evaluate sample_json (fun _ => Raise XMLSyntaxError) "ignored" = Ok NotScored /\
  step sample_json (fun _ => Raise XMLSyntaxError) 2 "ignored" empty_files
  = empty_files.
Proof.
  apply (ignored_collection_skips_parsing sample_json (parse_with sample_parser)
           (fun _ => Raise XMLSyntaxError) "ignored" 2 empty_files).
  reflexivity.
Defined.

(** ** What a whole run leaves in the two files *)

Section Run.

Variable json_loads : pyval -> py pyval.
Variable new_Mods : pyval -> py Mods.

Local Abbreviation eval := (evaluate json_loads new_Mods).

Lemma failed_positions_cons (idx : nat) (line : string) (rest : list string) :
  failed_positions eval idx (line :: rest)
  = ((if raises (eval line) then [idx] else [])
     ++ failed_positions eval (S idx) rest)%list.
Proof.
  unfold failed_positions. cbn [length seq combine List.filter snd].
  destruct (raises (eval line)); reflexivity.
Qed.

Lemma step_from_empty (idx : nat) (line : string) :
  step json_loads new_Mods idx line empty_files
  = {| csv := match eval line with Ok v => written v | Raise _ => [] end;
       log := if raises (eval line) then log_line idx else "" |}.
Proof.
  unfold step. destruct (evaluate json_loads new_Mods line) as [[|r|r]|e];
    reflexivity.
Qed.

Lemma log_of_app (a b : list nat) : log_of (a ++ b) = log_of a +:+ log_of b.
Proof.
  unfold log_of. induction a as [|x a IH]; [reflexivity|].
  cbn [app map fold_right]. rewrite IH. symmetry. apply append_assoc.
Qed.

Lemma run_from_empty (lines : list string) (idx : nat) :
  run json_loads new_Mods idx lines empty_files
  = {| csv := emitted_rows eval lines;
       log := log_of (failed_positions eval idx lines) |}.
Proof.
  revert idx. induction lines as [|line rest IH]; intros idx; [reflexivity|].
  cbn [run]. rewrite run_extends, IH, step_from_empty, failed_positions_cons.
  cbn [csv log emitted_rows flat_map]. f_equal.
  rewrite log_of_app. f_equal.
  destruct (raises (eval line)); [|reflexivity].
  unfold log_of. cbn. by rewrite append_empty_r.
Qed.

Lemma one_outcome_each (lines : list string) (idx : nat) :
  (length (emitted_rows eval lines) + length (failed_positions eval idx lines)
   <= length lines)%nat.
Proof.
  revert idx. induction lines as [|line rest IH]; intros idx; [reflexivity|].
  rewrite failed_positions_cons. cbn [emitted_rows flat_map].
  rewrite !length_app. specialize (IH (S idx)). fold (emitted_rows eval rest).
  destruct (eval line) as [[|r|r]|e]; cbn; lia.
Qed.

Lemma failed_positions_sound (lines : list string) (idx i : nat) :
  In i (failed_positions eval idx lines) <->
  exists line, nth_error lines (i - idx) = Some line /\ (idx <= i)%nat /\
               raises (eval line) = true.
Proof.
  revert idx. induction lines as [|line rest IH]; intros idx.
  - cbn. split; [tauto|]. intros (l & Hl & _). by destruct (i - idx)%nat.
  - rewrite failed_positions_cons, in_app_iff, IH. split.
    + intros [Hi | (l & Hl & Hle & Hr)].
      * destruct (raises (eval line)) eqn:Hr; [|destruct Hi].
        destruct Hi as [<- | []]. exists line. rewrite Nat.sub_diag. auto.
      * exists l. replace (i - idx)%nat with (S (i - S idx)) by lia.
        split; [exact Hl|]. split; [lia | exact Hr].
    + intros (l & Hl & Hle & Hr).
      destruct (decide (i = idx)) as [->|Hne].
      * left. rewrite Nat.sub_diag in Hl. cbn in Hl. injection Hl as ->.
        rewrite Hr. left. reflexivity.
      * right. exists l. replace (i - idx)%nat with (S (i - S idx)) in Hl by lia.
        split; [exact Hl|]. split; [lia | exact Hr].
Qed.

Lemma evaluate_written_inv (line : string) (r : row) :
  eval line = Ok (Written r) ->
  exists parsed : pyval,
    json_loads (PStr line) = Ok parsed /\
    py_getitem parsed (PStr "id") = Ok (mms_id r) /\
    py_getitem parsed (PStr "type") = Ok (mms_type r) /\
    py_getitem parsed (PStr "uuid") = Ok (uuid r) /\
    resolve_coll_id json_loads parsed = Ok (coll_id r) /\
    collection_kept (coll_id r) = true /\
    py_in (division r) ignore_divisions = false.
Proof.
  unfold evaluate. intros H.
  bind_inv H as parsed Hp. bind_inv H as a Ha. bind_inv H as b Hb.
  bind_inv H as c Hc. bind_inv H as x Hx. bind_inv H as co Hco.
  destruct (collection_kept co) eqn:Hkept; [|discriminate H].
  bind_inv H as m Hm. bind_inv H as r' Hr.
  apply score_record_inv in Hr as ((Hu & Hi & Ht & Hcoll) & _).
  destruct (py_in (division r') ignore_divisions) eqn:Hdiv; cbn [negb] in H;
    [discriminate H|].
  apply Ok_inj in H. injection H as <-.
  exists parsed. rewrite Hu, Hi, Ht, Hcoll. auto 10.
Qed.

End Run.

(** X14: every row of the table comes from a line of the input: it carries
    that record's [id], [type], [uuid] and resolved collection id, its
    collection is not an ignored one and its division is not an ignored
    one. *)
Theorem written_rows_traceable json_loads new_Mods (lines : list string) (r : row) :
  In r (csv (main json_loads new_Mods lines)) ->
  exists (line : string) (parsed : pyval),
    In line lines /\
    json_loads (PStr line) = Ok parsed /\
    py_getitem parsed (PStr "id") = Ok (mms_id r) /\
    py_getitem parsed (PStr "type") = Ok (mms_type r) /\
    py_getitem parsed (PStr "uuid") = Ok (uuid r) /\
    resolve_coll_id json_loads parsed = Ok (coll_id r) /\
    collection_kept (coll_id r) = true /\
    py_in (division r) ignore_divisions = false.
Proof.
  unfold main. change {| csv := []; log := "" |} with empty_files.
  rewrite run_from_empty. cbn [csv]. unfold emitted_rows.
  intros Hin. apply in_flat_map in Hin as (line & Hline & Hr).
  destruct (evaluate json_loads new_Mods line) as [[|r'|r']|e] eqn:He;
    cbn in Hr; try contradiction.
  destruct Hr as [<- | []].
  apply evaluate_written_inv in He as (parsed & H).
  exists line, parsed. split; [exact Hline | exact H].
Qed.

Lemma written_rows_traceable_witness :
  exists (line : string) (parsed : pyval),
    In line ["ignored"; "good"] /\
    sample_json (PStr line) = Ok parsed /\
    py_getitem parsed (PStr "id") = Ok (PInt 11).
Proof.
  destruct (written_rows_traceable sample_json (parse_with sample_parser)
              ["ignored"; "good"] _ (or_introl eq_refl))
    as (line & parsed & Hl & Hp & Hid & _).
  exists line, parsed. split; [exact Hl|]. split; [exact Hp | exact Hid].
Defined.

(** ** The lines of the failure log *)

Lemma to_uint_not_Nil (n : nat) : Nat.to_uint n <> Decimal.Nil.
Proof.
  rewrite <- (DecimalNat.Unsigned.of_to n) at 1.
  rewrite DecimalNat.Unsigned.to_of. unfold Decimal.unorm.
  destruct (Decimal.nzhead _); discriminate.
Qed.

Lemma str_inj (i j : nat) : str i = str j -> i = j.
Proof.
  unfold str. intros H.
  apply (f_equal DecimalString.NilZero.uint_of_string) in H.
  rewrite !DecimalString.NilZero.usu in H by apply to_uint_not_Nil.
  injection H as H. by apply DecimalNat.Unsigned.to_uint_inj.
Qed.

Lemma append_length (a b : string) :
  String.length (a +:+ b) = (String.length a + String.length b)%nat.
Proof.
  induction a as [|x a IH]; [reflexivity|].
  change (S (String.length (a +:+ b)) = S (String.length a + String.length b)).
  by rewrite IH.
Qed.

Lemma append_cancel_r (a b c : string) : a +:+ c = b +:+ c -> a = b.
Proof.
  revert b. induction a as [|x a IH]; intros [|y b] H.
  - reflexivity.
  - apply (f_equal String.length) in H.
    rewrite !append_length in H. cbn [String.length] in H. lia.
  - apply (f_equal String.length) in H.
    rewrite !append_length in H. cbn [String.length] in H. lia.
  - change (String x (a +:+ c) = String y (b +:+ c)) in H.
    injection H as -> H. f_equal. by apply IH.
Qed.

(** X15: the log line of a record names its position: two positions with
    the same log line are the same position. *)
Theorem log_line_names_one_record (i j : nat) :
  log_line i = log_line j -> i = j.
Proof.
  unfold log_line. intros H. apply append_cancel_r in H. by apply str_inj.
Qed.

Lemma log_line_names_one_record_witness : (12 = 12)%nat.
Proof. apply (log_line_names_one_record 12 12). reflexivity. Defined.

(** ** [discretedatetypes] and the order of the matches *)

Lemma group_length_perm (k : string) (a b : list xnode) :
  Permutation a b -> length (group k a) = length (group k b).
Proof.
  unfold group. induction 1 as [|x a b _ IH|x y a|a b c _ IH1 _ IH2];
    cbn [List.filter].
  - reflexivity.
  - destruct (named k x); cbn [length]; by rewrite IH.
  - destruct (named k x), (named k y); reflexivity.
  - by rewrite IH1.
Qed.

(** X16: the score of [discretedatetypes] does not depend on the order in
    which the matched nodes arrive. *)
Theorem discretedatetypes_order_irrelevant (a b : list xnode) :
  Permutation a b ->
  discretedatetypes (PList (map to_dict a))
  = discretedatetypes (PList (map to_dict b)).
Proof.
  intros Hp. rewrite !discretedatetypes_nodes.
  assert (Hnil : bool_decide (a = []) = bool_decide (b = [])).
  { apply bool_decide_ext. split; intros ->.
    - by apply Permutation_nil in Hp.
    - symmetry in Hp. by apply Permutation_nil in Hp. }
  rewrite Hnil.
  assert (Hall : forallb (fun xv => snd xv =? 1) (map_to_list (tally a ∅))
                 = forallb (fun xv => snd xv =? 1) (map_to_list (tally b ∅)));
    [|by rewrite Hall].
  apply eq_true_iff_eq. rewrite !tally_all_one. split; intros H k Hk.
  - rewrite <- (group_length_perm k a b Hp). apply H.
    apply in_map_iff in Hk as (n & <- & Hn). apply in_map.
    symmetry in Hp. by apply (Permutation_in _ Hp).
  - rewrite (group_length_perm k a b Hp). apply H.
    apply in_map_iff in Hk as (n & <- & Hn). apply in_map.
    by apply (Permutation_in _ Hp).
Qed.

Lemma discretedatetypes_order_irrelevant_witness :
  discretedatetypes (PList (map to_dict one_of_each))
  = discretedatetypes (PList (map to_dict (rev one_of_each))).
Proof.
  apply (discretedatetypes_order_irrelevant one_of_each (rev one_of_each)).
  apply perm_swap.
Defined.

(** ** The columns of a written row *)

(** X17: [writerow] accepts every row the script builds (it has no key
    outside the header) and fills each of the 25 columns, in the order of
    the header, with the value the script stored under that name: no column
    is left to the default. *)
Theorem every_column_written (r : row) :
  writerow header (row_items r)
  = Ok [CVal (uuid r); CVal (mms_id r); CVal (mms_type r); CVal (coll_id r);
        CVal (division r); CInt (title_1 r); CInt (title_2 r); CFloat (title r);
        CInt (typeOfResource r); CInt (genre_1 r); CInt (genre_2 r);
        CFloat (genre r); CInt (date_1 r); CInt (date_2 r); CInt (date_3 r);
        CInt (date_4 r); CFloat (date r); CInt (identifier r);
        CInt (location_1 r); CInt (location_2 r); CInt (location_3 r);
        CInt (location_4 r); CInt (location_5 r); CFloat (location r);
        CFloat (total_min_mand r)] /\
  NoDup header /\
  (forall k, In k header <-> In k (map fst (row_items r))).
Proof.
  split; [reflexivity|]. split.
  - apply (bool_decide_unpack _). vm_compute. exact I.
  - intros k. cbn. intuition.
Qed.

(** ** Scoring a document tree *)

Lemma exists_tree (name : string) (top : list xnode) :
  exists_ (element name top) = Ok (if existsb (named name) top then 1 else 0).
Proof. unfold exists_. cbn. by destruct (existsb _ _). Qed.

Lemma inList_tree (name : string) (top : list xnode) (allowed : list pyval) :
  raises (inList (element name top) allowed) = false.
Proof.
  unfold inList. cbn [el_exists element mbind py_bind].
  destruct (py_eq _ _); reflexivity.
Qed.

Lemma guarded_value (body : py Z) :
  try_except body (mret 0) = Ok (match body with Ok a => a | Raise _ => 0 end).
Proof. apply try_except_value. Qed.

Lemma division_tree (top : list xnode) :
  (if ((if 1 <=? Z.of_nat (length (map to_dict (select location_division top)))
        then 1 else 0) =? 1)
      && (0 <? Z.of_nat (length (map to_dict (select location_division top))))
   then
     first ← py_getitem (PList (map to_dict (select location_division top))) (PInt 0);
     pl ← py_getitem first (PStr "physicalLocation");
     py_getitem pl (PStr "#text")
   else mret (PStr "Null"))
  = tree_division top.
Proof.
  unfold tree_division. rewrite length_map.
  destruct (select location_division top) as [|x rest] eqn:Hsel; [reflexivity|].
  assert (Hle : (1 <=? Z.of_nat (length (x :: rest))) = true) by (apply Z.leb_le; cbn; lia).
  assert (Hlt : (0 <? Z.of_nat (length (x :: rest))) = true) by (apply Z.ltb_lt; cbn; lia).
  rewrite Hle, Hlt. change (1 =? 1) with true. cbn [andb map mbind py_bind py_getitem].
  rewrite seq_index_head. cbn [mbind py_bind].
  apply division_text. exact (filter_head _ _ _ _ Hsel).
Qed.

(** On a document tree every step of the scoring returns, except reading
    the text of the first division node. *)
Lemma score_record_tree (u i t c : pyval) (top : list xnode) :
  exists mk : pyval -> row,
    score_record u i t c (mods_of top)
    = (d ← tree_division top; mret (mk d)).
Proof.
  unfold score_record.
  rewrite multiplesingledates_tree.
  cbn [modsqual.titleInfo modsqual.typeOfResource modsqual.genre originInfo
       modsqual.identifier modsqual.location mods_of el_match element
       mbind py_bind].
  rewrite !exists_tree, xpathexactlyone_value, !xpathexists_value.
  unfold discretedatetypes, xpathvaluesmatch. rewrite !guarded_value.
  pose proof (inList_tree "typeOfResource" top resource_types) as Hin.
  destruct (inList (element "typeOfResource" top) resource_types) as [tor|e];
    [clear Hin | discriminate Hin].
  cbn [mbind py_bind py_len].
  match goal with
  | |- context [if ?b =? 1 then Ok ?a else mret 0] =>
      assert (Hd4 : exists d4, (if b =? 1 then Ok a else mret 0) = Ok d4)
        by (destruct (b =? 1); eauto);
      destruct Hd4 as [d4 Hd4]; rewrite Hd4
  end.
  cbn [mbind py_bind]. rewrite division_tree.
  eexists (fun d => _). reflexivity.
Qed.

(** X18: scoring a document tree fails in one case only: the first
    physicalLocation node with [type="division"] has no text, and the error
    is then a [KeyError]; every other document is scored. *)
Theorem tree_scoring_fails_only_on_empty_division (u i t c : pyval)
    (top : list xnode) :
  (score_record u i t c (mods_of top) = Raise KeyError <->
   exists n rest, select location_division top = n :: rest /\ has_text n = false) /\
  ((exists r, score_record u i t c (mods_of top) = Ok r) <->
   ~ exists n rest, select location_division top = n :: rest /\ has_text n = false) /\
  (forall e, score_record u i t c (mods_of top) = Raise e -> e = KeyError).
Proof.
  destruct (score_record_tree u i t c top) as [mk ->]. unfold tree_division.
  destruct (select location_division top) as [|n rest]; cbn [mbind py_bind].
  - split; [|split].
    + split; [discriminate | intros (? & ? & H & _); discriminate H].
    + split; [intros _ (? & ? & H & _); discriminate H | eauto].
    + discriminate.
  - destruct (has_text n) eqn:Ht; cbn [mbind py_bind]; (split; [|split]).
    + split; [discriminate|]. intros (n' & rest' & H & Hn).
      injection H as <- _. congruence.
    + split; [|eauto]. intros _ (n' & rest' & H & Hn).
      injection H as <- _. congruence.
    + discriminate.
    + split; [eauto | reflexivity].
    + split; [intros [r Hr]; discriminate Hr|]. intros H. exfalso. eauto.
    + intros e H. by injection H as <-.
Qed.

(** ** Scores of a document tree that depend on one another *)

Lemma score_record_steps (u i t c : pyval) (d : Mods) (r : row) :
  score_record u i t c d = Ok r ->
  exists_ (modsqual.titleInfo d) = Ok (title_1 r) /\
  (exists m, el_match (modsqual.titleInfo d) titleInfo_primary = Ok m /\
             xpathexactlyone m = Ok (title_2 r)) /\
  exists_ (modsqual.genre d) = Ok (genre_1 r) /\
  (exists m, el_match (modsqual.genre d) genre_authority = Ok m /\
             xpathexists m 1 = Ok (genre_2 r)) /\
  (exists m, el_match (originInfo d) single_dates = Ok m /\
             xpathexists m 1 = Ok (date_1 r)) /\
  (exists m, el_match (originInfo d) dates_without_point = Ok m /\
             discretedatetypes m = Ok (date_3 r)) /\
  (exists m, el_match (modsqual.location d) location_division = Ok m /\
             xpathexists m 1 = Ok (location_2 r)) /\
  (exists m, el_match (modsqual.location d) location_all_three = Ok m /\
             xpathexists m 1 = Ok (location_5 r)).
Proof.
  unfold score_record. intros H. repeat bind_inv H. ok_inv H. cbn.
  same_query. repeat split; eauto.
Qed.

Lemma exists_one_iff_nonempty (nodes : list xnode) :
  xpathexists (PList (map to_dict nodes)) 1 = Ok 1 <-> nodes <> [].
Proof.
  rewrite xpathexists_list, length_map. destruct nodes as [|n ns].
  - split; [discriminate | congruence].
  - assert (H : (1 <=? Z.of_nat (length (n :: ns))) = true) by (apply Z.leb_le; cbn; lia).
    rewrite H. split; [discriminate | reflexivity].
Qed.

Lemma nonempty_In {A} (l : list A) : l <> [] <-> exists x, In x l.
Proof.
  destruct l as [|x l]; split.
  - congruence.
  - intros [x []].
  - intros _. exists x. left. reflexivity.
  - discriminate.
Qed.

Lemma dates_without_point_are_single_dates (top : list xnode) (x : xnode) :
  In x (select dates_without_point top) -> In x (select single_dates top).
Proof.
  cbn [select]. unfold under. rewrite !filter_In, !in_flat_map.
  intros [(o & Ho & Hx) Hd]. apply filter_In in Ho as [Ho Hc].
  apply andb_true_iff in Hc as [Hn _]. split.
  - exists o. split; [apply filter_In; auto | exact Hx].
  - unfold is_single_date. by rewrite Hd.
Qed.

Lemma all_three_has_division (top : list xnode) (l : xnode) :
  In l (select location_all_three top) ->
  exists x, In x (select location_division top).
Proof.
  cbn [select]. unfold under. rewrite filter_In. intros [Hl Hc].
  apply andb_true_iff in Hc as [Hc _]. apply andb_true_iff in Hc as [Hc _].
  apply andb_true_iff in Hc as [Hn Hd]. apply existsb_exists in Hd as (x & Hx & Hp).
  exists x. apply filter_In. split; [|exact Hp].
  apply in_flat_map. exists l. split; [apply filter_In; auto | exact Hx].
Qed.

(** X19: in a scored document tree a narrower check never passes without
    the broader one: [title_2] needs [title_1], [genre_2] needs [genre_1],
    [date_3] needs [date_1], and [location_5] needs [location_2]. *)
Theorem narrower_checks_need_broader (u i t c : pyval) (top : list xnode)
    (r : row) :
  score_record u i t c (mods_of top) = Ok r ->
  (title_2 r = 1 -> title_1 r = 1) /\
  (genre_2 r = 1 -> genre_1 r = 1) /\
  (date_3 r = 1 -> date_1 r = 1) /\
  (location_5 r = 1 -> location_2 r = 1).
Proof.
  intros H.
  apply score_record_steps in H
    as (Ht1 & (mt & Hmt & Ht2) & Hg1 & (mg & Hmg & Hg2) & (md & Hmd & Hd1)
        & (mp & Hmp & Hd3) & (ml & Hml & Hl2) & (ma & Hma & Hl5)).
  cbn -[select] in Ht1, Hmt, Hg1, Hmg, Hmd, Hmp, Hml, Hma.
  apply Ok_inj in Hmt, Hmg, Hmd, Hmp, Hml, Hma. subst mt mg md mp ml ma.
  change (Ok (score (PBool (existsb (named "titleInfo") top)) True_ 1) = Ok (title_1 r))
    in Ht1.
  change (Ok (score (PBool (existsb (named "genre") top)) True_ 1) = Ok (genre_1 r))
    in Hg1.
  apply Ok_inj in Ht1, Hg1.
  split; [|split; [|split]].
  - intros H1. rewrite H1, xpathexactlyone_value in Ht2. cbn [py_len] in Ht2.
    rewrite length_map in Ht2.
    destruct (select titleInfo_primary top) as [|x rest] eqn:Hsel; [discriminate Ht2|].
    assert (Hx : In x (select titleInfo_primary top)) by (rewrite Hsel; left; reflexivity).
    cbn [select] in Hx. apply filter_In in Hx as [Hx Hp].
    apply andb_true_iff in Hp as [Hn _].
    assert (He : existsb (named "titleInfo") top = true)
      by (apply existsb_exists; eauto).
    rewrite He in Ht1. by rewrite <- Ht1.
  - intros H1. rewrite H1 in Hg2. apply exists_one_iff_nonempty in Hg2.
    apply nonempty_In in Hg2 as [x Hx].
    cbn [select] in Hx. apply filter_In in Hx as [Hx Hp].
    apply andb_true_iff in Hp as [Hn _].
    assert (He : existsb (named "genre") top = true)
      by (apply existsb_exists; eauto).
    rewrite He in Hg1. by rewrite <- Hg1.
  - intros H1. rewrite H1, discretedatetypes_nodes in Hd3.
    assert (Hne : select dates_without_point top <> []).
    { intros Hnil. rewrite Hnil in Hd3. discriminate Hd3. }
    apply nonempty_In in Hne as [x Hx].
    apply dates_without_point_are_single_dates in Hx.
    assert (H1' : xpathexists (PList (map to_dict (select single_dates top))) 1 = Ok 1).
    { apply exists_one_iff_nonempty, nonempty_In. eauto. }
    rewrite H1' in Hd1. by apply Ok_inj in Hd1.
  - intros H1. rewrite H1 in Hl5. apply exists_one_iff_nonempty in Hl5.
    apply nonempty_In in Hl5 as [l Hl]. apply all_three_has_division in Hl.
    assert (H2' : xpathexists (PList (map to_dict (select location_division top))) 1 = Ok 1).
    { apply exists_one_iff_nonempty, nonempty_In. exact Hl. }
    rewrite H2' in Hl2. by apply Ok_inj in Hl2.
Qed.

Lemma narrower_checks_need_broader_witness :
  exists r : row,
    score_record sample_ids (PInt 11) (PStr "Item") (PInt 7)
                 (mods_of (full_doc "Map Division")) = Ok r /\
    title_1 r = 1 /\ location_2 r = 1.
Proof.
  eexists. split; [vm_compute; reflexivity|].
  pose proof (narrower_checks_need_broader sample_ids (PInt 11) (PStr "Item")
                (PInt 7) (full_doc "Map Division") _ eq_refl)
    as (Ht & _ & _ & Hl).
  split; [apply Ht | apply Hl]; reflexivity.
Defined.

Lemma tree_scoring_fails_only_on_empty_division_witness :
  score_record sample_ids (PInt 11) (PStr "Item") (PInt 7) (mods_of (full_doc ""))
  = Raise KeyError.
Proof.
  apply (tree_scoring_fails_only_on_empty_division sample_ids (PInt 11)
           (PStr "Item") (PInt 7) (full_doc "")).
  exists (leaf "physicalLocation" [("type", "division")] ""),
    (@nil xnode).
  split; reflexivity.
Defined.

(** ** The unguarded length in the division test *)

(** X20: the division test takes the length of the division matches outside
    any handler and evaluates it even when [location_2] is 0.  So a record
    whose division query yields a value without a length is never scored,
    although [xpathexists] and [xpathvaluesmatch] both score that value 0. *)
Theorem division_query_without_length_fails (u i t c : pyval) (d : Mods)
    (m : pyval) :
  el_match (modsqual.location d) location_division = Ok m ->
  raises (py_len m) = true ->
  raises (score_record u i t c d) = true /\
  xpathexists m 1 = Ok 0 /\ xpathvaluesmatch m = Ok 0.
Proof.
  intros Hm Hlen. split; [|split].
  - destruct (score_record u i t c d) as [r|e] eqn:Hr; [|reflexivity].
    apply score_record_division in Hr as (m' & n & Hm' & _ & Hn & _).
    rewrite Hm in Hm'. apply Ok_inj in Hm'. subst m'.
    rewrite Hn in Hlen. discriminate Hlen.
  - rewrite xpathexists_value. by destruct (py_len m).
  - unfold xpathvaluesmatch, xpathvaluesmatch_try. rewrite try_except_value.
    by destruct (py_len m).
Qed.

Lemma division_query_without_length_fails_witness :
  raises (score_record sample_ids (PInt 11) (PStr "Item") (PInt 7) null_doc) = true /\
  xpathexists PNone 1 = Ok 0 /\ xpathvaluesmatch PNone = Ok 0.
Proof.
  apply (division_query_without_length_fails sample_ids (PInt 11) (PStr "Item")
           (PInt 7) null_doc PNone); reflexivity.
Defined.

(** ** The log read back *)

Lemma append_empty_l (a : string) : "" +:+ a = a.
Proof. reflexivity. Qed.

Lemma read_lines_digits (d : Decimal.uint) (s acc : string) :
  read_lines (DecimalString.NilEmpty.string_of_uint d +:+ s) acc
  = read_lines s (acc +:+ DecimalString.NilEmpty.string_of_uint d).
Proof.
  revert acc. induction d as [|d IH|d IH|d IH|d IH|d IH|d IH|d IH|d IH|d IH|d IH];
    intros acc.
  1: { cbn [DecimalString.NilEmpty.string_of_uint].
       by rewrite append_empty_l, append_empty_r. }
  all: cbn [DecimalString.NilEmpty.string_of_uint];
    match goal with
    | |- read_lines (String ?ch ?x +:+ ?t) ?a = _ =>
        change (String ch x +:+ t) with (String ch (x +:+ t));
        change (read_lines (String ch (x +:+ t)) a)
          with (read_lines (x +:+ t) (a +:+ String ch EmptyString));
        rewrite IH, append_assoc; reflexivity
    end.
Qed.

Lemma str_digits (i : nat) :
  str i = DecimalString.NilEmpty.string_of_uint (Nat.to_uint i).
Proof.
  unfold str. pose proof (to_uint_not_Nil i) as Hn.
  by destruct (Nat.to_uint i).
Qed.

Lemma read_lines_log_line (i : nat) (rest : string) :
  read_lines (log_line i +:+ rest) "" = option_map (cons (str i)) (read_lines rest "").
Proof.
  unfold log_line. rewrite append_assoc, str_digits, read_lines_digits.
  rewrite append_empty_l. reflexivity.
Qed.

Lemma to_uint_normal (i : nat) : Decimal.unorm (Nat.to_uint i) = Nat.to_uint i.
Proof.
  rewrite <- (DecimalNat.Unsigned.of_to i) at 2.
  by rewrite DecimalNat.Unsigned.to_of.
Qed.

Lemma read_position_str (i : nat) : read_position (str i) = Some i.
Proof.
  unfold read_position, str.
  rewrite DecimalString.NilZero.usu by apply to_uint_not_Nil.
  rewrite to_uint_normal, (Decimal.internal_uint_dec_lb _ _ eq_refl).
  by rewrite DecimalNat.Unsigned.of_to.
Qed.

Lemma read_log_log_of (positions : list nat) :
  read_log (log_of positions) = Some positions.
Proof.
  unfold read_log.
  assert (H : read_lines (log_of positions) "" = Some (map str positions)).
  { induction positions as [|i ps IH]; [reflexivity|].
    change (log_of (i :: ps)) with (log_line i +:+ log_of ps).
    by rewrite read_lines_log_line, IH. }
  rewrite H. clear H. induction positions as [|i ps IH]; [reflexivity|].
  cbn [map read_positions]. by rewrite read_position_str, IH.
Qed.

Section Positions.

Variable eval : string -> py verdict.

Lemma emitted_rows_app (a b : list string) :
  emitted_rows eval (a ++ b) = (emitted_rows eval a ++ emitted_rows eval b)%list.
Proof. unfold emitted_rows. apply flat_map_app. Qed.

Lemma failed_positions_step (idx : nat) (line : string) (rest : list string) :
  failed_positions eval idx (line :: rest)
  = ((if raises (eval line) then [idx] else [])
     ++ failed_positions eval (S idx) rest)%list.
Proof.
  unfold failed_positions. cbn [length seq combine List.filter snd].
  destruct (raises (eval line)); reflexivity.
Qed.

Lemma failed_positions_app (a b : list string) (idx : nat) :
  failed_positions eval idx (a ++ b)
  = (failed_positions eval idx a
     ++ failed_positions eval (idx + length a) b)%list.
Proof.
  revert idx. induction a as [|x a IH]; intros idx.
  - cbn [app length]. by rewrite Nat.add_0_r.
  - cbn [app length]. rewrite !failed_positions_step, IH, <- app_assoc.
    do 2 f_equal. f_equal. lia.
Qed.

Lemma failed_positions_from (lines : list string) (idx i : nat) :
  In i (failed_positions eval idx lines) -> (idx <= i)%nat.
Proof.
  revert idx. induction lines as [|x l IH]; intros idx; [intros []|].
  rewrite failed_positions_step, in_app_iff. intros [H | H].
  - destruct (raises (eval x)); [|destruct H]. destruct H as [<- | []]. lia.
  - apply IH in H. lia.
Qed.

Lemma failed_positions_increasing (lines : list string) (idx : nat) :
  StronglySorted Nat.lt (failed_positions eval idx lines).
Proof.
  revert idx. induction lines as [|x l IH]; intros idx; [constructor|].
  rewrite failed_positions_step. destruct (raises (eval x)); [|apply IH].
  cbn [app]. constructor; [apply IH|].
  apply List.Forall_forall. intros i Hi. apply failed_positions_from in Hi.
  unfold Nat.lt. lia.
Qed.

End Positions.

(** C6: when the evaluation of the record at position [length pre] raises
    (the exception reaches the record-level handler), the table receives no
    row for it: it holds the rows of the records before and of the records
    after.  The log receives one line for it, after what the records before
    wrote and before what the records after write; read back line by line
    as decimal numerals, the log lists the positions of the failed records
    before, then [length pre], the position of this record counted from 0,
    then the positions of the failed records after. *)
Theorem failed_record_logged json_loads new_Mods (pre post : list string)
    (line : string) (e : exn) :
  evaluate json_loads new_Mods line = Raise e ->
  csv (main json_loads new_Mods (pre ++ line :: post))
  = (emitted_rows (evaluate json_loads new_Mods) pre
     ++ emitted_rows (evaluate json_loads new_Mods) post)%list /\
  log (main json_loads new_Mods (pre ++ line :: post))
  = log (main json_loads new_Mods pre)
    +:+ log_line (length pre)
    +:+ log (run json_loads new_Mods (S (length pre)) post empty_files) /\
  read_log (log (main json_loads new_Mods (pre ++ line :: post)))
  = Some (failed_positions (evaluate json_loads new_Mods) 0 pre
          ++ length pre
             :: failed_positions (evaluate json_loads new_Mods) (S (length pre)) post)%list.
Proof.
  intros H. unfold main. change {| csv := []; log := "" |} with empty_files.
  split; [|split].
  - rewrite run_from_empty. cbn [csv]. rewrite emitted_rows_app.
    cbn [emitted_rows flat_map]. by rewrite H.
  - rewrite run_app. cbn [run Nat.add].
    rewrite (step_raise _ _ _ _ _ _ H), run_extends. cbn.
    by rewrite append_assoc.
  - rewrite run_from_empty. cbn [log]. rewrite read_log_log_of.
    rewrite failed_positions_app, failed_positions_step, H. reflexivity.
Qed.

Lemma failed_record_logged_witness :
  csv (main sample_json (parse_with sample_parser) ["junk"; "bad-xml"; "no-hash"])
  = csv (main sample_json (parse_with sample_parser) ["no-hash"]) /\
  log (main sample_json (parse_with sample_parser) ["junk"; "bad-xml"; "no-hash"])
  = String "0" (String "010" (String "1" (String "010" ""))) /\
  read_log (log (main sample_json (parse_with sample_parser)
                   ["junk"; "bad-xml"; "no-hash"]))
  = Some [0%nat; 1%nat].
Proof.
  pose proof (failed_record_logged sample_json (parse_with sample_parser)
                ["junk"] ["no-hash"] "bad-xml" XMLSyntaxError eq_refl)
    as (Hcsv & Hlog & Hread).
  split; [exact Hcsv|]. split; [exact Hlog | exact Hread].
Defined.

(** X13: after a whole run the table holds the rows of the records that were
    scored and kept, in the order of the input.  The log, read back line by
    line as decimal numerals, lists exactly the positions (counted from 0)
    of the records whose evaluation raised, in increasing order.  A record
    gives at most one of the two. *)
Theorem main_output json_loads new_Mods (lines : list string) :
  csv (main json_loads new_Mods lines)
  = emitted_rows (evaluate json_loads new_Mods) lines /\
  read_log (log (main json_loads new_Mods lines))
  = Some (failed_positions (evaluate json_loads new_Mods) 0 lines) /\
  StronglySorted Nat.lt (failed_positions (evaluate json_loads new_Mods) 0 lines) /\
  (forall i, In i (failed_positions (evaluate json_loads new_Mods) 0 lines) <->
             exists line, nth_error lines i = Some line /\
                          raises (evaluate json_loads new_Mods line) = true) /\
  (length (csv (main json_loads new_Mods lines))
   + length (failed_positions (evaluate json_loads new_Mods) 0 lines)
   <= length lines)%nat.
Proof.
  unfold main. change {| csv := []; log := "" |} with empty_files.
  rewrite run_from_empty. cbn [csv log].
  split; [reflexivity|]. split; [apply read_log_log_of|].
  split; [apply failed_positions_increasing|]. split.
  - intros i. rewrite failed_positions_sound, Nat.sub_0_r.
    split; intros (l & Hl & H); exists l; split; try exact Hl; [tauto|].
    split; [lia | exact H].
  - apply one_outcome_each.
Qed.
